(** * Customer feedback dashboard: the satisfaction scoring model

    A shallow embedding of the computations of
    [customer_feedback_dashboard_final.py] (and of its sibling
    [customer_feedback_dashboard_v6.py], whose loading, scoring and summary
    code is the same): loading and cleaning the sheet, the per-customer
    score, the company summary, the two company figures and the
    consistency table, followed by the second scoring pass that feeds the
    exported report.

    The script is written once and runs on whatever numbers the sheet
    holds, so the embedding is written once over an interface of
    arithmetic ([Number]) with two instances:
    - [binary64], IEEE double precision, the numbers Python and pandas
      really compute with (executable);
    - [exact], the real numbers plus the missing marker, which is the same
      code with rounding and overflow taken away.

    Some library behaviours are not in the script and are modelled from
    the behaviour of the libraries:
    - [df.iterrows()] hands over a row of a frame with a text column as
      an [object] Series of Python floats, so that
      [imp / total_importance] is Python's true division, which raises
      [ZeroDivisionError] on a zero divisor; the row of a frame whose
      customer names are all numbers is a numeric Series of numpy
      scalars, whose division warns and returns the IEEE quotient
      ([dtype], [row_dtype], [divide]);
    - [Series.mean] skips missing values, [np.mean] of a list does not;
    - [np.std] of a Series dispatches to [Series.std] with [ddof=0];
    - [ax.pie] raises [ValueError] on a negative wedge size and on a
      share that is not a number ([ax_pie]);
    - [idxmax] and [idxmin] of a column without any value return the
      missing label, which [.loc] refuses with [KeyError]
      ([key_takeaways]).
    Sums inside numpy and pandas are taken left to right here.  numpy
    adds the same values pairwise once there are eight of them or more,
    so in double precision the last digits of a mean or of a standard
    deviation over eight or more values can differ from the model's; in
    exact arithmetic the order of a sum does not matter.

    [display], [analyse] and [export] are the script as it runs on a
    frame with a text in its name column, which is every sheet with a
    written customer name; [sections], [dashboard] and [run] take the
    type of the rows from the frame. *)

From Stdlib Require Import List ZArith Bool String Ascii Lia.
From Stdlib Require Import Floats Reals Lra.
From Stdlib Require Import Permutation.
Import ListNotations.

Set Warnings "-inexact-float".

Local Open Scope list_scope.

(** ** Exceptions *)

Inductive exn : Type :=
| ZeroDivisionError
| ValueError
| KeyError.

Inductive result (A : Type) : Type :=
| Ok (a : A)
| Raise (e : exn).

Arguments Ok {A} a.
Arguments Raise {A} e.

Definition bind {A B} (m : result A) (k : A -> result B) : result B :=
  match m with
  | Ok a => k a
  | Raise e => Raise e
  end.

Notation "'do' x <- m ;; k" := (bind m (fun x => k))
  (at level 10, x name, m at level 100, k at level 200).

(** A list comprehension whose body may raise: elements are evaluated in
    order and the first exception ends the comprehension. *)
Fixpoint comprehension {A B} (f : A -> result B) (l : list A) : result (list B) :=
  match l with
  | [] => Ok []
  | x :: rest =>
      do y <- f x ;;
      do ys <- comprehension f rest ;;
      Ok (y :: ys)
  end.

(** ** Numbers *)

Class Number (F : Type) : Type := {
  of_Z : Z -> F;
  nan : F;
  add : F -> F -> F;
  sub : F -> F -> F;
  mul : F -> F -> F;
  div : F -> F -> F;
  sqrt : F -> F;
  is_zero : F -> bool;
  is_nan : F -> bool
}.

(** IEEE double precision. *)
Definition float_of_Z (z : Z) : float :=
  match z with
  | Z0 => PrimFloat.of_uint63 (Uint63.of_Z 0)
  | Zpos _ => PrimFloat.of_uint63 (Uint63.of_Z z)
  | Zneg p => PrimFloat.opp (PrimFloat.of_uint63 (Uint63.of_Z (Zpos p)))
  end.

#[export] Instance binary64 : Number float := {
  of_Z := float_of_Z;
  nan := PrimFloat.nan;
  add := PrimFloat.add;
  sub := PrimFloat.sub;
  mul := PrimFloat.mul;
  div := PrimFloat.div;
  sqrt := PrimFloat.sqrt;
  is_zero := fun x => PrimFloat.eqb x PrimFloat.zero;
  is_nan := PrimFloat.is_nan
}.

(** Real numbers with the missing marker.  Every operation is strict in
    [NaN]; a quotient by zero and the root of a negative number are
    undefined. *)
Inductive xreal : Type :=
| Real (x : R)
| NaN.

Definition xlift2 (f : R -> R -> R) (a b : xreal) : xreal :=
  match a, b with
  | Real x, Real y => Real (f x y)
  | _, _ => NaN
  end.

Definition xdiv (a b : xreal) : xreal :=
  match a, b with
  | Real x, Real y => if Req_dec_T y 0 then NaN else Real (x / y)
  | _, _ => NaN
  end.

Definition xsqrt (a : xreal) : xreal :=
  match a with
  | Real x => if Rlt_dec x 0 then NaN else Real (R_sqrt.sqrt x)
  | NaN => NaN
  end.

Definition xis_zero (a : xreal) : bool :=
  match a with
  | Real x => if Req_dec_T x 0 then true else false
  | NaN => false
  end.

Definition xis_nan (a : xreal) : bool :=
  match a with
  | Real _ => false
  | NaN => true
  end.

(** The sum of a list of real numbers. *)
Definition sumR (l : list R) : R := fold_right Rplus 0%R l.

#[export] Instance exact : Number xreal := {
  of_Z := fun z => Real (IZR z);
  nan := NaN;
  add := xlift2 Rplus;
  sub := xlift2 Rminus;
  mul := xlift2 Rmult;
  div := xdiv;
  sqrt := xsqrt;
  is_zero := xis_zero;
  is_nan := xis_nan
}.

(** ** The frame *)

Definition categories : list string :=
  ["Timeliness"; "Competence"; "Clarity"; "Quality"; "Service"; "Pricing"]%string.

Definition columns : list string :=
  ["Customer Name";
   "Timeliness_Importance"; "Timeliness_Performance";
   "Competence_Importance"; "Competence_Performance";
   "Clarity_Importance"; "Clarity_Performance";
   "Quality_Importance"; "Quality_Performance";
   "Service_Importance"; "Service_Performance";
   "Pricing_Importance"; "Pricing_Performance"]%string.

(** [f"{c}_Importance"] and [f"{c}_Performance"]. *)
Definition Importance_of (c : string) : string := (c ++ "_Importance")%string.
Definition Performance_of (c : string) : string := (c ++ "_Performance")%string.

(** A cell of the sheet as [read_excel] hands it over. *)
Inductive cell (F : Type) : Type :=
| Blank
| Text (s : string)
| Num (x : F).

Arguments Blank {F}.
Arguments Text {F} s.
Arguments Num {F} x.

(** A row of the cleaned frame: the name cell and the numeric cells,
    addressed by column label. *)
Record Row (F : Type) : Type := {
  Customer_Name : cell F;
  get : string -> F
}.

Arguments Customer_Name {F} r.
Arguments get {F} r col.

Definition DataFrame (F : Type) : Type := list (Row F).

(** The characters [str.strip()] removes.  A character of a [string]
    stands for the code point of its number, so the texts of the model
    are those of the first 256 code points; among these Python counts
    as whitespace 9 to 13, 28 to 32, 133 (next line) and 160 (no-break
    space). *)
Definition is_space (a : ascii) : bool :=
  let n := nat_of_ascii a in
  ((9 <=? n) && (n <=? 13) || (28 <=? n) && (n <=? 32)
   || (n =? 133) || (n =? 160))%nat.

Fixpoint lstrip (s : string) : string :=
  match s with
  | EmptyString => EmptyString
  | String a rest => if is_space a then lstrip rest else s
  end.

Fixpoint rev_string (s acc : string) : string :=
  match s with
  | EmptyString => acc
  | String a rest => rev_string rest (String a acc)
  end.

Definition strip (s : string) : string :=
  rev_string (lstrip (rev_string (lstrip s) EmptyString)) EmptyString.

Fixpoint lookup {V} (key : string) (kvs : list (string * V)) : option V :=
  match kvs with
  | [] => None
  | (k, v) :: rest => if String.eqb key k then Some v else lookup key rest
  end.

Section Loading.

Context {F : Type} `{Number F}.

(** What [pd.to_numeric] makes of a text cell: the number it spells, or
    the missing marker.  The parser belongs to pandas. *)
Variable to_numeric_text : string -> F.

(** [df.applymap(lambda x: str(x).strip() if isinstance(x, str) else x)] *)
Definition applymap_strip (c : cell F) : cell F :=
  match c with
  | Text s => Text (strip s)
  | _ => c
  end.

(** [pd.to_numeric(..., errors='coerce')] *)
Definition to_numeric (c : cell F) : F :=
  match c with
  | Blank => nan
  | Text s => to_numeric_text s
  | Num x => x
  end.

(** [.notna()] *)
Definition notna (c : cell F) : bool :=
  match c with
  | Blank => false
  | Text _ => true
  | Num x => negb (is_nan x)
  end.

(** The sheet is as wide as its widest row; shorter rows are padded with
    blanks. *)
Definition width (df_raw : list (list (cell F))) : nat :=
  fold_right (fun r w => Nat.max (List.length r) w) 0%nat df_raw.

(** Columns [1:14] of one raw row. *)
Definition iloc_columns (w : nat) (r : list (cell F)) : list (cell F) :=
  map (fun j => nth j r Blank) (seq 1 (Nat.min 13 (w - 1))).

Definition clean_row (cells : list (cell F)) : Row F :=
  let cells := map applymap_strip cells in
  let numeric := combine (tl columns) (map to_numeric (tl cells)) in
  {| Customer_Name := hd Blank cells;
     get := fun col =>
       match lookup col numeric with
       | Some v => v
       | None => nan
       end |}.

(** Section 1 of the script, from [df_raw] to the cleaned [df].  Naming the
    thirteen columns raises [ValueError] when the slice has another
    number of columns. *)
Definition load (df_raw : list (list (cell F))) : result (DataFrame F) :=
  let w := width df_raw in
  let df := map (iloc_columns w) (skipn 3 df_raw) in
  if Nat.eqb (Nat.min 13 (w - 1)) (List.length columns) then
    Ok (filter (fun row => notna (Customer_Name row)) (map clean_row df))
  else Raise ValueError.

End Loading.

(** The type of the Series [df.iterrows()] yields for a row.  [applymap]
    builds the frame anew and pandas infers the type of every column
    from what it holds.  With a text among the customer names the name
    column is an [object] column beside the numeric rating columns, and
    a row of such a frame is an [object] Series holding Python floats.
    When the names are all numbers (customer numbers, say) every column
    is numeric, and a row is a numeric Series ([int64] or [float64])
    holding numpy scalars. *)
Inductive dtype : Type :=
| object
| numeric.

Section Scoring.

Context {F : Type} `{Number F}.

Definition is_text (c : cell F) : bool :=
  match c with
  | Text _ => true
  | _ => false
  end.

(** The type of the rows of a cleaned frame.  A name that is missing
    is the float NaN and makes no column an [object] column, and rows
    without a name are gone from the cleaned frame. *)
Definition row_dtype (df : DataFrame F) : dtype :=
  if existsb (fun row => is_text (Customer_Name row)) df then object else numeric.

(** Python's [sum]: left to right, starting from the integer 0. *)
Definition py_sum (l : list F) : F := fold_left add l (of_Z 0).

(** Python's [/] on floats. *)
Definition truediv (x y : F) : result F :=
  if is_zero y then Raise ZeroDivisionError else Ok (div x y).

(** [/] on two values of a row: Python's for Python floats; numpy's for
    numpy scalars, which gives a warning and the IEEE quotient when the
    divisor is zero. *)
Definition divide (d : dtype) (x y : F) : result F :=
  match d with
  | object => truediv x y
  | numeric => Ok (div x y)
  end.

(** Whether dividing by [total] raises. *)
Definition raises (d : dtype) (total : F) : bool :=
  match d with
  | object => is_zero total
  | numeric => false
  end.

(** The table shown for one customer, with the steps of the calculation. *)
Record Breakdown : Type := {
  b_name : cell F;
  b_importance : list F;
  b_performance : list F;
  b_total_importance : F;
  b_weights : list F;
  b_weighted_perf : list F;
  b_satisfaction : F
}.

Definition importance_of (row : Row F) : list F :=
  map (fun c => get row (Importance_of c)) categories.

Definition performance_of (row : Row F) : list F :=
  map (fun c => get row (Performance_of c)) categories.

(** The body of the loop over customers, on the values of a row of type
    [d].  The divisor 5 of the last step is a literal, so that division
    cannot raise. *)
Definition score (d : dtype) (name : cell F) (importance performance : list F)
  : result Breakdown :=
  let total_importance := py_sum importance in
  do weights <- comprehension (fun imp => divide d imp total_importance) importance ;;
  let weighted_perf := map (fun pw => mul (fst pw) (snd pw)) (combine performance weights) in
  let satisfaction := mul (div (py_sum weighted_perf) (of_Z 5)) (of_Z 100) in
  Ok {| b_name := name;
        b_importance := importance;
        b_performance := performance;
        b_total_importance := total_importance;
        b_weights := weights;
        b_weighted_perf := weighted_perf;
        b_satisfaction := satisfaction |}.

(** The body on a row of Python floats. *)
Definition score_row (row : Row F) : result Breakdown :=
  score object (Customer_Name row) (importance_of row) (performance_of row).

(** [for _, row in df.iterrows(): ... ratings.append(satisfaction)], with
    the list [ratings] and the tables shown so far as the state; [d] is
    the type of the rows of the frame. *)
Fixpoint iterrows (d : dtype) (df : DataFrame F) (ratings : list F)
  (shown : list Breakdown) : result (list F * list Breakdown) :=
  match df with
  | [] => Ok (ratings, shown)
  | row :: rest =>
      do b <- score d (Customer_Name row) (importance_of row) (performance_of row) ;;
      iterrows d rest (ratings ++ [b_satisfaction b]) (shown ++ [b])
  end.

End Scoring.

Arguments Breakdown F : clear implicits.

Section Aggregates.

Context {F : Type} `{Number F}.

(** [df[col]] *)
Definition column (df : DataFrame F) (col : string) : list F :=
  map (fun row => get row col) df.

Definition dropna (s : list F) : list F :=
  filter (fun x => negb (is_nan x)) s.

(** [Series.mean()], which skips missing values: the sum of the values
    present over their number. *)
Definition Series_mean (s : list F) : F :=
  let values := dropna s in
  div (py_sum values) (of_Z (Z.of_nat (List.length values))).

(** [np.mean] of a Python list: nothing is skipped. *)
Definition np_mean (l : list F) : F :=
  div (py_sum l) (of_Z (Z.of_nat (List.length l))).

(** [Series.std(ddof=...)]: missing values are skipped, the squared
    distances to the mean are summed and divided by [count - ddof], and
    both the count and the divisor are missing when [count <= ddof]. *)
Definition Series_std (ddof : Z) (s : list F) : F :=
  let values := dropna s in
  let count := Z.of_nat (List.length values) in
  let d := if (count <=? ddof)%Z then nan else of_Z (count - ddof) in
  let count := if (count <=? ddof)%Z then nan else of_Z count in
  let avg := div (py_sum values) count in
  let sqr := map (fun x => mul (sub avg x) (sub avg x)) values in
  sqrt (div (py_sum sqr) d).

(** [np.std(series)] hands over to the Series with numpy's default
    [ddof=0]. *)
Definition np_std (s : list F) : F := Series_std 0 s.

Record SummaryRow : Type := {
  Category : string;
  Importance : F;
  Performance : F;
  Gap : F
}.

(** The [summary] frame with its [Gap] column. *)
Definition summarise (df : DataFrame F) : list SummaryRow :=
  map (fun c =>
         let importance := Series_mean (column df (Importance_of c)) in
         let performance := Series_mean (column df (Performance_of c)) in
         {| Category := c;
            Importance := importance;
            Performance := performance;
            Gap := sub performance importance |})
      categories.

(** The variables the script holds when it has filled the consistency
    table of its section 4. *)
Record Store : Type := {
  ratings : list F;
  shown : list (Breakdown F);
  summary : list SummaryRow;
  imp_avg : F;
  perf_avg : F;
  CSI : F;
  avg_customer_sat : F;
  variation : list (string * F)
}.

(** Sections 2 to 4 as far as the consistency table, on a frame whose
    rows are of type [d]: the customer reports, the company summary
    with the two company figures, and the consistency table.  The
    charts drawn on the way take whatever numbers they get; the
    priorities chart and the key takeaways, which do not, come after
    the table ([dashboard]). *)
Definition sections (d : dtype) (df : DataFrame F) : result Store :=
  do loop <- iterrows d df [] [] ;;
  let summary := summarise df in
  let imp_avg := Series_mean (map Importance summary) in
  let perf_avg := Series_mean (map Performance summary) in
  let CSI := mul (div perf_avg imp_avg) (of_Z 100) in
  let avg_customer_sat := np_mean (fst loop) in
  let variation :=
    map (fun c => (c, np_std (column df (Performance_of c)))) categories in
  Ok {| ratings := fst loop;
        shown := snd loop;
        summary := summary;
        imp_avg := imp_avg;
        perf_avg := perf_avg;
        CSI := CSI;
        avg_customer_sat := avg_customer_sat;
        variation := variation |}.

(** The same on a frame with a text in its name column, which is every
    sheet with a written customer name: the rows hold Python floats. *)
Definition display (df : DataFrame F) : result Store := sections object df.

(** Sections 1 to 4, as far as the consistency table, on an uploaded
    sheet with written customer names. *)
Definition analyse (to_numeric_text : string -> F) (df_raw : list (list (cell F)))
  : result Store :=
  do df <- load to_numeric_text df_raw ;;
  display df.

(** ** The export pass (section 6)

    It follows the key takeaways, which read the summary and the
    consistency table and change nothing.  Its two loops go through
    the same frame, so their rows are of the same type [d]. *)

(** The loop that fills [ratings] again when the list is empty. *)
Fixpoint refill (d : dtype) (df : DataFrame F) (ratings : list F)
  : result (list F) :=
  match df with
  | [] => Ok ratings
  | row :: rest =>
      let importance := importance_of row in
      let performance := performance_of row in
      let total_importance := py_sum importance in
      do weights <- comprehension (fun imp => divide d imp total_importance) importance ;;
      let weighted_perf :=
        map (fun pw => mul (fst pw) (snd pw)) (combine performance weights) in
      let satisfaction := mul (div (py_sum weighted_perf) (of_Z 5)) (of_Z 100) in
      refill d rest (ratings ++ [satisfaction])
  end.

(** One customer section of the report. *)
Record Section_ : Type := {
  s_name : cell F;
  s_satisfaction : F;
  s_rows : list (string * F * F * F * F)
}.

(** The loop that writes the customer sections of the report; the table
    lines are (category, importance, performance, weight, contribution). *)
Fixpoint customer_sections (d : dtype) (df : DataFrame F) (html : list Section_)
  : result (list Section_) :=
  match df with
  | [] => Ok html
  | row :: rest =>
      let name := Customer_Name row in
      let importance := importance_of row in
      let performance := performance_of row in
      let total_importance := py_sum importance in
      do weights <- comprehension (fun imp => divide d imp total_importance) importance ;;
      let weighted_perf :=
        map (fun pw => mul (fst pw) (snd pw)) (combine performance weights) in
      let satisfaction := mul (div (py_sum weighted_perf) (of_Z 5)) (of_Z 100) in
      let lines :=
        map (fun i => (nth i categories EmptyString,
                       nth i importance nan,
                       nth i performance nan,
                       nth i weights nan,
                       nth i weighted_perf nan))
            (seq 0 (List.length categories)) in
      customer_sections d rest
        (html ++ [{| s_name := name; s_satisfaction := satisfaction; s_rows := lines |}])
  end.

Record Report : Type := {
  r_total_customers : nat;
  r_CSI : F;
  r_avg_satisfaction : F;
  r_summary : list SummaryRow;
  r_customers : list Section_
}.

(** The numbers of section 6, from the variables section 4 left to the
    finished report; charts and markup carry no number of their own.
    The priorities chart and the key insights of the report are drawn
    and looked up from the summary and the consistency table of
    section 4 once more. *)
Definition export_as (d : dtype) (df : DataFrame F) (st : Store)
  : result (Store * Report) :=
  do ratings <- (if Nat.eqb (List.length (ratings st)) 0
              then refill d df []
              else Ok (ratings st)) ;;
  let avg_customer_sat :=
    match ratings with
    | [] => of_Z 0
    | _ :: _ => np_mean ratings
    end in
  let imp_avg := Series_mean (map Importance (summary st)) in
  let perf_avg := Series_mean (map Performance (summary st)) in
  let CSI := mul (div perf_avg imp_avg) (of_Z 100) in
  do customers <- customer_sections d df [] ;;
  Ok ({| ratings := ratings;
         shown := shown st;
         summary := summary st;
         imp_avg := imp_avg;
         perf_avg := perf_avg;
         CSI := CSI;
         avg_customer_sat := avg_customer_sat;
         variation := variation st |},
      {| r_total_customers := List.length df;
         r_CSI := CSI;
         r_avg_satisfaction := avg_customer_sat;
         r_summary := summary st;
         r_customers := customers |}).

(** The same on a frame with a text in its name column. *)
Definition export (df : DataFrame F) (st : Store) : result (Store * Report) :=
  export_as object df st.

End Aggregates.

Arguments SummaryRow F : clear implicits.
Arguments Store F : clear implicits.
Arguments Section_ F : clear implicits.
Arguments Report F : clear implicits.

(** ** The calculation as the specification words it *)

Section Specification.

Context {F : Type} `{Number F}.

Definition category_count : Z := Z.of_nat (List.length categories).

(** [weight[i] = importance[i] / total_importance] *)
Definition spec_weight (importance : list F) (i : nat) : F :=
  div (nth i importance nan) (py_sum importance).

(** [contribution[i] = performance[i] * weight[i]] *)
Definition spec_contribution (importance performance : list F) (i : nat) : F :=
  mul (nth i performance nan) (spec_weight importance i).

(** [(sum of contributions / divisor) * 100] over the fixed categories. *)
Definition spec_satisfaction_pct (divisor : Z) (importance performance : list F) : F :=
  mul (div (py_sum (map (spec_contribution importance performance)
                        (seq 0 (List.length categories))))
           (of_Z divisor))
      (of_Z 100).

(** The percentage of a record with the divisor the script uses. *)
Definition pct (row : Row F) : F :=
  spec_satisfaction_pct 5 (importance_of row) (performance_of row).

(** The steps of a scored record are the steps of the specification. *)
Definition follows_the_steps (row : Row F) (b : Breakdown F) : Prop :=
  b_total_importance b = py_sum (importance_of row) /\
  b_weights b =
    map (spec_weight (importance_of row)) (seq 0 (List.length categories)) /\
  b_weighted_perf b =
    map (spec_contribution (importance_of row) (performance_of row))
        (seq 0 (List.length categories)) /\
  b_satisfaction b = pct row.

(** The mean of the records whose value in the column is not missing. *)
Definition mean_over_present (df : DataFrame F) (col : string) : F :=
  let present := filter (fun row => negb (is_nan (get row col))) df in
  div (py_sum (map (fun row => get row col) present))
      (of_Z (Z.of_nat (List.length present))).

(** The mean of the entries of a list that are not missing. *)
Definition spec_mean (l : list F) : F :=
  let present := filter (fun x => negb (is_nan x)) l in
  div (py_sum present) (of_Z (Z.of_nat (List.length present))).

(** [CSI = (mean(avg_performance) / mean(avg_importance)) * 100] *)
Definition spec_CSI (df : DataFrame F) : F :=
  let avg_performance :=
    map (fun c => mean_over_present df (Performance_of c)) categories in
  let avg_importance :=
    map (fun c => mean_over_present df (Importance_of c)) categories in
  mul (div (spec_mean avg_performance) (spec_mean avg_importance)) (of_Z 100).

(** [avg_customer_satisfaction = mean(satisfaction_pct over customers)],
    a plain mean over all the customers. *)
Definition spec_avg_customer_satisfaction (satisfaction_pct : Row F -> F)
  (df : DataFrame F) : F :=
  div (py_sum (map satisfaction_pct df)) (of_Z (Z.of_nat (List.length df))).

(** Population standard deviation: the root of the mean squared distance
    to the mean, the divisor being the number of values. *)
Definition population_standard_deviation (values : list F) : F :=
  let n := of_Z (Z.of_nat (List.length values)) in
  let mu := div (py_sum values) n in
  sqrt (div (py_sum (map (fun x => mul (sub mu x) (sub mu x)) values)) n).

(** A record given by its ratings in category order. *)
Definition row_of (name : cell F) (importance performance : list F) : Row F :=
  {| Customer_Name := name;
     get := fun col =>
       match lookup col (combine (map Importance_of categories) importance
                         ++ combine (map Performance_of categories) performance) with
       | Some v => v
       | None => nan
       end |}.

End Specification.

(** ** Inputs used below *)

Module Inputs.

Local Open Scope float_scope.

(** One customer who cares most about timeliness and is served worst
    there. *)
Definition scenario : Row float :=
  row_of (Text "Acme") [5; 1; 1; 1; 1; 1] [1; 5; 5; 5; 5; 5].

(** A customer with no stated priorities at all. *)
Definition indifferent : Row float :=
  row_of (Text "Nemo") [0; 0; 0; 0; 0; 0] [3; 3; 3; 3; 3; 3].

(** Ratings on the scale, all performances at the top. *)
Definition delighted : Row float :=
  row_of (Text "Top") [5; 5; 5; 5; 4; 2] [5; 5; 5; 5; 5; 5].

(** An importance below zero. *)
Definition contrarian : Row float :=
  row_of (Text "Contra") [2; -1; 0; 0; 0; 0] [5; 0; 0; 0; 0; 0].

(** Importances whose sum leaves the range of double precision. *)
Definition astronomical : Row float :=
  row_of (Text "Astro") [9e307; 9e307; 0; 0; 0; 0] [5; 5; 5; 5; 5; 5].

(** A sheet whose only data row has no name. *)
Definition nameless_sheet : list (list (cell float)) :=
  [ [Blank];
    [Blank; Text "Customer Feedback"];
    [Blank; Text "Customer Name"; Text "Timeliness"; Blank; Text "Competence";
     Blank; Text "Clarity"; Blank; Text "Quality"; Blank; Text "Service";
     Blank; Text "Pricing"; Blank];
    [Num 1; Blank; Num 5; Num 4; Num 5; Num 4; Num 5; Num 4; Num 5; Num 4;
     Num 5; Num 4; Num 5; Num 4] ].

(** The same sheet with a named customer and one blank cell. *)
Definition small_sheet : list (list (cell float)) :=
  [ [Blank];
    [Blank; Text "Customer Feedback"];
    [Blank; Text "Customer Name"; Text "Timeliness"; Blank; Text "Competence";
     Blank; Text "Clarity"; Blank; Text "Quality"; Blank; Text "Service";
     Blank; Text "Pricing"; Blank];
    [Num 1; Text " Acme Ltd "; Num 5; Num 1; Num 1; Num 5; Num 1; Num 5;
     Num 1; Num 5; Num 1; Num 5; Num 1; Num 5];
    [Num 2; Text "Bolt"; Num 4; Num 3; Num 4; Num 3; Num 4; Num 3;
     Num 4; Num 3; Num 4; Num 3; Blank; Num 3] ].

Definition no_text : string -> float := fun _ => PrimFloat.nan.

(** What the store holds when no customer is left. *)
Definition empty_store : Store float :=
  {| ratings := [];
     shown := [];
     summary :=
       map (fun c => {| Category := c;
                        Importance := PrimFloat.nan;
                        Performance := PrimFloat.nan;
                        Gap := PrimFloat.nan |})
           categories;
     imp_avg := PrimFloat.nan;
     perf_avg := PrimFloat.nan;
     CSI := PrimFloat.nan;
     avg_customer_sat := PrimFloat.nan;
     variation := map (fun c => (c, PrimFloat.nan)) categories |}.

(** The scenario in exact arithmetic. *)
Definition exact_scenario : Row xreal :=
  row_of (Text "Acme")
    [Real 5; Real 1; Real 1; Real 1; Real 1; Real 1]
    [Real 1; Real 5; Real 5; Real 5; Real 5; Real 5].

(** A second customer in exact arithmetic, who left the performance of
    pricing blank. *)
Definition exact_second : Row xreal :=
  row_of (Text "Bolt")
    [Real 1; Real 1; Real 1; Real 1; Real 1; Real 1]
    [Real 3; Real 5; Real 1; Real 4; Real 5; NaN].

(** A sheet that names its customers by number; the first of them gave
    every importance as 0. *)
Definition numbered_sheet : list (list (cell float)) :=
  [ [Blank];
    [Blank; Text "Customer Feedback"];
    [Blank; Text "Customer No."; Text "Timeliness"; Blank; Text "Competence";
     Blank; Text "Clarity"; Blank; Text "Quality"; Blank; Text "Service";
     Blank; Text "Pricing"; Blank];
    [Num 1; Num 101; Num 0; Num 3; Num 0; Num 3; Num 0; Num 3;
     Num 0; Num 3; Num 0; Num 3; Num 0; Num 3];
    [Num 2; Num 102; Num 5; Num 1; Num 1; Num 5; Num 1; Num 5;
     Num 1; Num 5; Num 1; Num 5; Num 1; Num 5] ].

(** The same sheet with the customers named in writing. *)
Definition named_sheet : list (list (cell float)) :=
  [ [Blank];
    [Blank; Text "Customer Feedback"];
    [Blank; Text "Customer Name"; Text "Timeliness"; Blank; Text "Competence";
     Blank; Text "Clarity"; Blank; Text "Quality"; Blank; Text "Service";
     Blank; Text "Pricing"; Blank];
    [Num 1; Text "Nemo"; Num 0; Num 3; Num 0; Num 3; Num 0; Num 3;
     Num 0; Num 3; Num 0; Num 3; Num 0; Num 3];
    [Num 2; Text "Acme"; Num 5; Num 1; Num 1; Num 5; Num 1; Num 5;
     Num 1; Num 5; Num 1; Num 5; Num 1; Num 5] ].

End Inputs.

(** ** The rating scale in double precision *)

(** All the lists of a given length over an alphabet. *)
Fixpoint lists_over {A} (alphabet : list A) (n : nat) : list (list A) :=
  match n with
  | O => [[]]
  | S n => flat_map (fun x => map (cons x) (lists_over alphabet n)) alphabet
  end.

(** The whole-number ratings of the questionnaire, zero included. *)
Definition rating_scale : list float := [0; 1; 2; 3; 4; 5]%float.

(** [abs(sum(weights) - 1.0) <= 1e-9] for the weights the scorer derives
    from a list of importances with a positive total. *)
Definition weights_within_tolerance (importance : list float) : bool :=
  if PrimFloat.ltb 0 (py_sum importance) then
    match comprehension (fun imp => truediv imp (py_sum importance)) importance with
    | Ok weights => PrimFloat.leb (PrimFloat.abs (py_sum weights - 1)) 1e-9
    | Raise _ => false
    end
  else true.

(** ** The charts, the takeaways and the page layout *)

(** Comparisons of numbers, false as soon as a value is missing. *)
Class Ordered (F : Type) : Type := {
  num_le : F -> F -> bool;
  num_lt : F -> F -> bool
}.

#[export] Instance binary64_order : Ordered float := {
  num_le := PrimFloat.leb;
  num_lt := PrimFloat.ltb
}.

Definition xle (a b : xreal) : bool :=
  match a, b with
  | Real x, Real y => if Rle_dec x y then true else false
  | _, _ => false
  end.

Definition xlt (a b : xreal) : bool :=
  match a, b with
  | Real x, Real y => if Rlt_dec x y then true else false
  | _, _ => false
  end.

#[export] Instance exact_order : Ordered xreal := {
  num_le := xle;
  num_lt := xlt
}.

Section Charts.

Context {F : Type} `{Number F} `{Ordered F}.

(** [bins=[50, 65, 75, 85, 95, 100]] *)
Definition satisfaction_bins : list F := map of_Z [50; 65; 75; 85; 95; 100]%Z.

(** For each edge but the last the number of values below it, for the
    last edge the number of values up to it. *)
Definition searchsorted_inclusive (a edges : list F) : list nat :=
  map (fun e => List.length (filter (fun x => num_lt x e) a)) (removelast edges)
  ++ match edges with
     | [] => []
     | _ :: _ => [List.length (filter (fun x => num_le x (last edges nan)) a)]
     end.

(** [np.diff] *)
Fixpoint diff (l : list nat) : list nat :=
  match l with
  | c0 :: (c1 :: _) as rest => (c1 - c0)%nat :: diff rest
  | _ => []
  end.

(** [np.histogram] with explicit edges: the bars are the differences of
    the cumulative counts. *)
Definition np_histogram (a edges : list F) : list nat :=
  diff (searchsorted_inclusive a edges).

(** The bars of the distribution chart. *)
Definition satisfaction_histogram (ratings : list F) : list nat :=
  np_histogram ratings satisfaction_bins.

(** [summary["Importance"] / summary["Importance"].sum()], the slices of
    the priorities chart; [Series.sum] skips missing values. *)
Definition weights_total (summary : list (SummaryRow F)) : list F :=
  let importance := map Importance summary in
  let total := py_sum (dropna importance) in
  map (fun x => div x total) importance.

(** ["green" if g >= 0 else "red"], and the classes [positive] and
    [negative] of the report table. *)
Definition gap_is_positive (g : F) : bool := num_le (of_Z 0) g.

(** The position [idxmax] and [idxmin] return: missing values are passed
    over and of equal values the first one wins.  Without any value
    there is no position. *)
Fixpoint idx_best (better : F -> F -> bool) (l : list F) (i : nat)
  (best : option (nat * F)) : option nat :=
  match l with
  | [] => option_map fst best
  | x :: rest =>
      if is_nan x then idx_best better rest (S i) best
      else
        match best with
        | None => idx_best better rest (S i) (Some (i, x))
        | Some (j, m) =>
            if better x m
            then idx_best better rest (S i) (Some (i, x))
            else idx_best better rest (S i) best
        end
  end.

Definition idxmax (s : list F) : option nat :=
  idx_best (fun x m => num_lt m x) s 0 None.

Definition idxmin (s : list F) : option nat :=
  idx_best (fun x m => num_lt x m) s 0 None.

(** The key takeaways: [summary.loc[summary['Gap'].idxmax(),'Category']]
    and its likes. *)
Definition category_at (i : nat) : string := nth i categories EmptyString.

Definition highest_rated_area (st : Store F) : option string :=
  option_map category_at (idxmax (map Gap (summary st))).

Definition lowest_rated_area (st : Store F) : option string :=
  option_map category_at (idxmin (map Gap (summary st))).

Definition most_consistent_area (st : Store F) : option string :=
  option_map category_at (idxmin (map snd (variation st))).

Definition most_important_area (st : Store F) : option string :=
  option_map category_at (idxmax (map Importance (summary st))).

(** [if idx < len(df) - 1 and (idx + 1) % 2 == 0], the page break after
    the customer at position [idx]. *)
Definition page_break_after (idx n : Z) : bool :=
  ((idx <? n - 1) && ((idx + 1) mod 2 =? 0))%Z.

Definition page_breaks (df : DataFrame F) : list bool :=
  map (fun idx => page_break_after (Z.of_nat idx) (Z.of_nat (List.length df)))
      (seq 0 (List.length df)).

(** ** The end of section 4 *)

(** [ax4.pie(weights_total, ...)].  matplotlib raises [ValueError] for a
    negative wedge size; it then divides the sizes by their sum, and
    the wedge of a share that is not a number cannot be built, which is
    a [ValueError] as well.  (matplotlib does this on the sizes in
    single precision, which the model leaves out: a size between
    [-2^-150] and 0 is refused here and drawn as an empty wedge
    there.) *)
Definition ax_pie (x : list F) : result unit :=
  if existsb (fun size => num_lt size (of_Z 0)) x then Raise ValueError
  else
    let sx := py_sum x in
    let shares := map (fun size => div size sx) x in
    if existsb is_nan shares then Raise ValueError else Ok tt.

(** [summary.loc[label, 'Category']] for the label [idxmax] or [idxmin]
    returned: without any value in the column pandas 2 returns the
    missing label, which is no label of the frame. *)
Definition loc_Category (area : option string) : result string :=
  match area with
  | Some c => Ok c
  | None => Raise KeyError
  end.

Record Takeaways : Type := {
  highest_rated : string;
  lowest_rated : string;
  most_consistent : string
}.

(** The key takeaways, looked up in the order of the text. *)
Definition key_takeaways (st : Store F) : result Takeaways :=
  do highest <- loc_Category (highest_rated_area st) ;;
  do lowest <- loc_Category (lowest_rated_area st) ;;
  do consistent <- loc_Category (most_consistent_area st) ;;
  Ok {| highest_rated := highest;
        lowest_rated := lowest;
        most_consistent := consistent |}.

(** Sections 2 to 4 of the script on the cleaned frame, whatever its
    name column holds: the rows are of the type of the frame, and after
    the consistency table come the priorities chart and the key
    takeaways. *)
Definition dashboard (df : DataFrame F) : result (Store F * Takeaways) :=
  do st <- sections (row_dtype df) df ;;
  do drawn <- ax_pie (weights_total (summary st)) ;;
  do takeaways <- key_takeaways st ;;
  Ok (st, takeaways).

(** Sections 1 to 4 on an uploaded sheet. *)
Definition run (to_numeric_text : string -> F) (df_raw : list (list (cell F)))
  : result (Store F * Takeaways) :=
  do df <- load to_numeric_text df_raw ;;
  dashboard df.

(** ** The report of the earlier version *)

Inductive html_part : Type :=
| Summary_html (total_customers : nat) (CSI avg_customer_sat : F)
| Customer_html (name : cell F) (satisfaction : F).

(** Its customer loop, which appends a part to [html_sections] for every
    customer. *)
Fixpoint v6_iterrows (d : dtype) (df : DataFrame F) (ratings : list F)
  (html_sections : list html_part) : result (list F * list html_part) :=
  match df with
  | [] => Ok (ratings, html_sections)
  | row :: rest =>
      let name := Customer_Name row in
      let importance := importance_of row in
      let performance := performance_of row in
      let total_importance := py_sum importance in
      do weights <- comprehension (fun imp => divide d imp total_importance) importance ;;
      let weighted_perf :=
        map (fun pw => mul (fst pw) (snd pw)) (combine performance weights) in
      let satisfaction := mul (div (py_sum weighted_perf) (of_Z 5)) (of_Z 100) in
      v6_iterrows d rest (ratings ++ [satisfaction])
        (html_sections ++ [Customer_html name satisfaction])
  end.

(** The parts of its report: the script goes through the customers, the
    summary and the charts, the priorities chart being the last, and
    then puts the summary in front with
    [html_sections.insert(0, html_summary)].  It has no key takeaways
    and no consistency table. *)
Definition v6_html_sections (df : DataFrame F) : result (list html_part) :=
  do loop <- v6_iterrows (row_dtype df) df [] [] ;;
  let summary := summarise df in
  let imp_avg := Series_mean (map Importance summary) in
  let perf_avg := Series_mean (map Performance summary) in
  let CSI := mul (div perf_avg imp_avg) (of_Z 100) in
  let avg_customer_sat := np_mean (fst loop) in
  do drawn <- ax_pie (weights_total summary) ;;
  Ok (Summary_html (List.length df) CSI avg_customer_sat :: snd loop).

(** The parts of a report of the earlier version that holds the figures
    of a store. *)
Definition parts_with (df : DataFrame F) (st : Store F) : list html_part :=
  Summary_html (List.length df) (CSI st) (avg_customer_sat st)
  :: map (fun row => Customer_html (Customer_Name row) (pct row)) df.

End Charts.

Arguments html_part F : clear implicits.

(** What a position [i] holding [m] means for a list under an order
    [le]: [m] is there, no number of the list is better, and every
    number before it is worse. *)
Definition best_at (le : R -> R -> Prop) (s : list xreal) (i : nat) (m : R) : Prop :=
  nth_error s i = Some (Real m) /\
  (forall k x, nth_error s k = Some (Real x) -> le x m) /\
  (forall k x, (k < i)%nat -> nth_error s k = Some (Real x) -> ~ le m x).

(** ** The consistency figure as the specification words it *)

(** The numbers among the entries of a column. *)
Fixpoint numbers (l : list xreal) : list R :=
  match l with
  | [] => []
  | Real x :: rest => x :: numbers rest
  | NaN :: rest => numbers rest
  end.

(** The performances recorded in a category, customer by customer. *)
Definition recorded_performances (df : DataFrame xreal) (c : string) : list R :=
  numbers (map (fun row => get row (Performance_of c)) df).

(** The population standard deviation of real numbers: the root of the
    mean of the squares of [x - mu], where [mu] is the mean of the
    numbers and both means divide by their count [n].  Without any
    number there is none. *)
Definition sigma (xs : list R) : xreal :=
  match xs with
  | [] => NaN
  | _ :: _ =>
      let n := INR (List.length xs) in
      let mu := (sumR xs / n)%R in
      Real (R_sqrt.sqrt (sumR (map (fun x => (x - mu) * (x - mu))%R xs) / n))
  end.

(** The entries of a column of doubles that are there, record by
    record. *)
Fixpoint present (df : DataFrame float) (col : string) : list float :=
  match df with
  | [] => []
  | row :: rest =>
      if PrimFloat.is_nan (get row col) then present rest col
      else get row col :: present rest col
  end.

(** ** The scoring loop *)

(** Two doubles that are not the same double are different. *)
Lemma float_neq (x y : float) : PrimFloat.Leibniz.eqb x y = false -> x <> y.
Proof.
  intros Hxy E. apply FloatAxioms.Leibniz.eqb_spec in E.
  rewrite E in Hxy. discriminate.
Qed.

Ltac float_neq := apply float_neq; vm_compute; reflexivity.

Section ScoringFacts.

Context {F : Type} `{Number F}.

Lemma comprehension_divide (d : dtype) (t : F) (l : list F) :
  comprehension (fun imp => divide d imp t) l =
  if raises d t
  then match l with [] => Ok [] | _ :: _ => Raise ZeroDivisionError end
  else Ok (map (fun imp => div imp t) l).
Proof.
  destruct d; unfold divide, truediv, raises.
  - destruct (is_zero t).
    + destruct l; reflexivity.
    + induction l as [|x l IH]; simpl; [reflexivity|].
      rewrite IH. reflexivity.
  - induction l as [|x l IH]; simpl; [reflexivity|].
    rewrite IH. reflexivity.
Qed.

Lemma comprehension_truediv (t : F) (l : list F) :
  comprehension (fun imp => truediv imp t) l =
  if is_zero t
  then match l with [] => Ok [] | _ :: _ => Raise ZeroDivisionError end
  else Ok (map (fun imp => div imp t) l).
Proof. exact (comprehension_divide object t l). Qed.

Lemma score_zero (d : dtype) (row : Row F) :
  raises d (py_sum (importance_of row)) = true ->
  score d (Customer_Name row) (importance_of row) (performance_of row) =
  Raise ZeroDivisionError.
Proof.
  intros Hz. unfold score.
  rewrite comprehension_divide, Hz. reflexivity.
Qed.

Lemma score_nonzero (d : dtype) (row : Row F) :
  raises d (py_sum (importance_of row)) = false ->
  exists b,
    score d (Customer_Name row) (importance_of row) (performance_of row) = Ok b /\
    b_name b = Customer_Name row /\
    b_importance b = importance_of row /\
    b_performance b = performance_of row /\
    b_total_importance b = py_sum (importance_of row) /\
    b_weights b = map (fun imp => div imp (py_sum (importance_of row)))
                      (importance_of row) /\
    b_satisfaction b = pct row.
Proof.
  intros Hz. unfold score.
  rewrite comprehension_divide, Hz. simpl.
  eexists. split; [reflexivity|]. simpl. repeat split; reflexivity.
Qed.

(** Where Python's division does not raise, the two divisions give the
    same table. *)
Lemma score_any_dtype (d : dtype) (row : Row F) :
  is_zero (py_sum (importance_of row)) = false ->
  score d (Customer_Name row) (importance_of row) (performance_of row) =
  score_row row.
Proof.
  intros Hz. unfold score_row, score.
  rewrite !comprehension_divide. destruct d; cbn [raises]; rewrite ?Hz; reflexivity.
Qed.

Lemma score_row_zero (row : Row F) :
  is_zero (py_sum (importance_of row)) = true ->
  score_row row = Raise ZeroDivisionError.
Proof. exact (score_zero object row). Qed.

Lemma score_row_nonzero (row : Row F) :
  is_zero (py_sum (importance_of row)) = false ->
  exists b, score_row row = Ok b /\
    b_name b = Customer_Name row /\
    b_importance b = importance_of row /\
    b_performance b = performance_of row /\
    b_total_importance b = py_sum (importance_of row) /\
    b_weights b = map (fun imp => div imp (py_sum (importance_of row)))
                      (importance_of row) /\
    b_satisfaction b = pct row.
Proof. exact (score_nonzero object row). Qed.

Lemma score_row_raises (row : Row F) (e : exn) :
  score_row row = Raise e ->
  e = ZeroDivisionError /\ is_zero (py_sum (importance_of row)) = true.
Proof.
  intros Hr. destruct (is_zero (py_sum (importance_of row))) eqn:Hz.
  - rewrite (score_row_zero row Hz) in Hr. inversion Hr. split; reflexivity.
  - destruct (score_row_nonzero row Hz) as [b [Hb _]]. congruence.
Qed.

Lemma iterrows_ok (d : dtype) (df : DataFrame F) :
  forall ratings shown out,
    iterrows d df ratings shown = Ok out ->
    fst out = ratings ++ map pct df /\
    Forall (fun row => raises d (py_sum (importance_of row)) = false) df.
Proof.
  induction df as [|row rest IH]; intros ratings shown out Hrun; cbn [iterrows] in Hrun.
  - inversion Hrun. simpl. rewrite app_nil_r. split; [reflexivity | constructor].
  - destruct (raises d (py_sum (importance_of row))) eqn:Hz.
    + rewrite (score_zero d row Hz) in Hrun. discriminate.
    + destruct (score_nonzero d row Hz) as [b [Hb [_ [_ [_ [_ [_ Hs]]]]]]].
      rewrite Hb in Hrun. cbn [bind] in Hrun.
      destruct (IH _ _ _ Hrun) as [Hout Hall].
      split; [| constructor; assumption].
      rewrite Hout, Hs, <- app_assoc. reflexivity.
Qed.

Lemma iterrows_total (d : dtype) (df : DataFrame F) :
  Forall (fun row => raises d (py_sum (importance_of row)) = false) df ->
  forall ratings shown, exists out, iterrows d df ratings shown = Ok out.
Proof.
  induction 1 as [|row rest Hz _ IH]; intros ratings shown; cbn [iterrows].
  - eexists. reflexivity.
  - destruct (score_nonzero d row Hz) as [b [Hb _]]. rewrite Hb. cbn [bind].
    apply IH.
Qed.

Lemma iterrows_raises (d : dtype) (df : DataFrame F) (row : Row F) :
  In row df ->
  raises d (py_sum (importance_of row)) = true ->
  forall ratings shown, iterrows d df ratings shown = Raise ZeroDivisionError.
Proof.
  intros Hin Hz.
  induction df as [|row' rest IH]; intros ratings shown; [contradiction|].
  cbn [iterrows]. destruct (raises d (py_sum (importance_of row'))) eqn:Hz'.
  - rewrite (score_zero d row' Hz'). reflexivity.
  - destruct (score_nonzero d row' Hz') as [b [Hb _]]. rewrite Hb. cbn [bind].
    destruct Hin as [E | Hin]; [subst row'; congruence|].
    apply IH. assumption.
Qed.

(** The loop raises nothing but [ZeroDivisionError], and that only for
    a record it cannot divide. *)
Lemma iterrows_exn (d : dtype) (df : DataFrame F) (e : exn) :
  forall ratings shown,
    iterrows d df ratings shown = Raise e ->
    e = ZeroDivisionError /\
    exists row, In row df /\ raises d (py_sum (importance_of row)) = true.
Proof.
  induction df as [|row rest IH]; intros ratings shown Hrun; cbn [iterrows] in Hrun.
  - discriminate.
  - destruct (raises d (py_sum (importance_of row))) eqn:Hz.
    + rewrite (score_zero d row Hz) in Hrun. inversion Hrun.
      split; [reflexivity|]. exists row. split; [left; reflexivity | assumption].
    + destruct (score_nonzero d row Hz) as [b [Hb _]].
      rewrite Hb in Hrun. cbn [bind] in Hrun.
      destruct (IH _ _ Hrun) as [He [row' [Hin Hz']]].
      split; [assumption|]. exists row'. split; [right; assumption | assumption].
Qed.

(** Rows of numpy scalars always get through the loop. *)
Lemma iterrows_numeric (df : DataFrame F) :
  forall ratings shown, exists out, iterrows numeric df ratings shown = Ok out.
Proof.
  apply iterrows_total. apply Forall_forall. intros row _. reflexivity.
Qed.

(** A frame the loop of Python floats gets through is scored alike
    whatever the type of its rows. *)
Lemma iterrows_any_dtype (d : dtype) (df : DataFrame F) :
  Forall (fun row => is_zero (py_sum (importance_of row)) = false) df ->
  forall ratings shown,
    iterrows d df ratings shown = iterrows object df ratings shown.
Proof.
  induction 1 as [|row rest Hz _ IH]; intros ratings shown; cbn [iterrows].
  - reflexivity.
  - rewrite (score_any_dtype d row Hz).
    change (score object (Customer_Name row) (importance_of row) (performance_of row))
      with (score_row row).
    destruct (score_row row) as [b|e]; cbn [bind]; [apply IH | reflexivity].
Qed.

Lemma score_steps (d : dtype) (row : Row F) (b : Breakdown F) :
  score d (Customer_Name row) (importance_of row) (performance_of row) = Ok b ->
  follows_the_steps row b.
Proof.
  intros Hb. destruct (raises d (py_sum (importance_of row))) eqn:Hz.
  - rewrite (score_zero d row Hz) in Hb. discriminate.
  - unfold score in Hb.
    rewrite comprehension_divide, Hz in Hb. simpl in Hb.
    injection Hb as <-. repeat split; reflexivity.
Qed.

Lemma score_row_steps (row : Row F) (b : Breakdown F) :
  score_row row = Ok b -> follows_the_steps row b.
Proof. exact (score_steps object row b). Qed.

Lemma iterrows_shown (d : dtype) (df : DataFrame F) :
  forall ratings shown out,
    iterrows d df ratings shown = Ok out ->
    exists bs, snd out = shown ++ bs /\ Forall2 follows_the_steps df bs.
Proof.
  induction df as [|row rest IH]; intros ratings shown out Hrun; cbn [iterrows] in Hrun.
  - inversion Hrun. exists []. simpl. rewrite app_nil_r. split; [reflexivity | constructor].
  - destruct (score d (Customer_Name row) (importance_of row) (performance_of row))
      as [b|e] eqn:Hb; cbn [bind] in Hrun; [|discriminate].
    destruct (IH _ _ _ Hrun) as [bs [Hout Hall]].
    exists (b :: bs). split.
    + rewrite Hout, <- app_assoc. reflexivity.
    + constructor; [apply (score_steps d); assumption | assumption].
Qed.

Lemma sections_ratings (d : dtype) (df : DataFrame F) (st : Store F) :
  sections d df = Ok st -> ratings st = map pct df.
Proof.
  unfold sections. intros Hd.
  destruct (iterrows d df [] []) as [out|e] eqn:Hloop; simpl in Hd; [|discriminate].
  inversion Hd. simpl. apply (iterrows_ok d df [] [] out Hloop).
Qed.

Lemma sections_shown (d : dtype) (df : DataFrame F) (st : Store F) :
  sections d df = Ok st -> Forall2 follows_the_steps df (shown st).
Proof.
  unfold sections. intros Hd.
  destruct (iterrows d df [] []) as [out|e] eqn:Hloop; simpl in Hd; [|discriminate].
  inversion Hd. simpl.
  destruct (iterrows_shown d df [] [] out Hloop) as [bs [Hout Hall]].
  rewrite Hout. exact Hall.
Qed.

Lemma sections_nonzero (d : dtype) (df : DataFrame F) (st : Store F) :
  sections d df = Ok st ->
  Forall (fun row => raises d (py_sum (importance_of row)) = false) df.
Proof.
  unfold sections. intros Hd.
  destruct (iterrows d df [] []) as [out|e] eqn:Hloop; simpl in Hd; [|discriminate].
  apply (iterrows_ok d df [] [] out Hloop).
Qed.

Lemma sections_raise (d : dtype) (df : DataFrame F) (e : exn) :
  sections d df = Raise e ->
  e = ZeroDivisionError /\
  exists row, In row df /\ raises d (py_sum (importance_of row)) = true.
Proof.
  unfold sections. intros Hd.
  destruct (iterrows d df [] []) as [out|e'] eqn:Hloop; simpl in Hd; [discriminate|].
  inversion Hd. subst e'. apply (iterrows_exn d df e [] [] Hloop).
Qed.

Lemma display_ratings (df : DataFrame F) (st : Store F) :
  display df = Ok st -> ratings st = map pct df.
Proof. exact (sections_ratings object df st). Qed.

Lemma display_shown (df : DataFrame F) (st : Store F) :
  display df = Ok st -> Forall2 follows_the_steps df (shown st).
Proof. exact (sections_shown object df st). Qed.

Lemma display_nonzero (df : DataFrame F) (st : Store F) :
  display df = Ok st ->
  Forall (fun row => is_zero (py_sum (importance_of row)) = false) df.
Proof. exact (sections_nonzero object df st). Qed.

(** What [display] computes, the sections compute for rows of either
    type. *)
Lemma display_sections (d : dtype) (df : DataFrame F) (st : Store F) :
  display df = Ok st -> sections d df = Ok st.
Proof.
  intros Hd. pose proof (display_nonzero df st Hd) as Hall.
  unfold display, sections in Hd. unfold sections.
  rewrite (iterrows_any_dtype d df Hall). exact Hd.
Qed.

End ScoringFacts.

(** C1, as the script has it: for every dataset the customer loop goes
    through, the percentage appended for each record is the sum of its
    contributions divided by 5, the top of the rating scale, times 100,
    and the table shown for the record holds the weights
    [weight[i] = importance[i] / total_importance] and the contributions
    [contribution[i] = performance[i] * weight[i]]. *)
Theorem satisfaction_is_sum_over_five_times_hundred :
  forall (F : Type) (N : Number F) (df : DataFrame F) (st : Store F),
    display df = Ok st ->
    ratings st =
      map (fun row => spec_satisfaction_pct 5 (importance_of row) (performance_of row)) df /\
    Forall2
      (fun row b =>
         b_total_importance b = py_sum (importance_of row) /\
         b_weights b =
           map (spec_weight (importance_of row)) (seq 0 (List.length categories)) /\
         b_weighted_perf b =
           map (spec_contribution (importance_of row) (performance_of row))
               (seq 0 (List.length categories)) /\
         b_satisfaction b =
           spec_satisfaction_pct 5 (importance_of row) (performance_of row))
      df (shown st).
Proof.
  intros F N df st Hd. split.
  - apply (display_ratings df st Hd).
  - apply (display_shown df st Hd).
Qed.

Lemma satisfaction_is_sum_over_five_times_hundred_witness :
  exists st, display [Inputs.scenario] = Ok st /\
    ratings st =
    map (fun row => spec_satisfaction_pct 5 (importance_of row) (performance_of row))
        [Inputs.scenario].
Proof.
  destruct (display [Inputs.scenario]) as [st|e] eqn:Hd.
  - exists st. split; [reflexivity|].
    exact (proj1 (satisfaction_is_sum_over_five_times_hundred
                    float binary64 [Inputs.scenario] st Hd)).
  - exfalso. vm_compute in Hd. discriminate.
Defined.

(** C1, as the specification has it, fails: dividing by the number of
    categories gives another percentage than the loop's. *)
Lemma satisfaction_not_over_category_count :
  exists st, display [Inputs.scenario] = Ok st /\
    ratings st <>
    map (fun row =>
           spec_satisfaction_pct category_count (importance_of row) (performance_of row))
        [Inputs.scenario].
Proof.
  eexists. split; [vm_compute; reflexivity|].
  vm_compute. intros E.
  apply (f_equal (hd PrimFloat.zero)) in E. revert E. float_neq.
Qed.

(** C2, as the script has it: for importance [5,1,1,1,1,1] and
    performance [1,5,5,5,5,5] the scorer yields total importance 10,
    weights [0.5,0.1,0.1,0.1,0.1,0.1], contributions all 0.5, and a
    satisfaction of 60.0, that is (3.0 / 5) * 100. *)
Theorem scenario_scores_sixty :
  score_row Inputs.scenario =
  Ok {| b_name := Text "Acme";
        b_importance := [5; 1; 1; 1; 1; 1]%float;
        b_performance := [1; 5; 5; 5; 5; 5]%float;
        b_total_importance := 10%float;
        b_weights := [0.5; 0.1; 0.1; 0.1; 0.1; 0.1]%float;
        b_weighted_perf := [0.5; 0.5; 0.5; 0.5; 0.5; 0.5]%float;
        b_satisfaction := 60%float |}.
Proof. vm_compute. reflexivity. Qed.

(** C2, as the specification has it, fails: the scenario does not score
    50.0. *)
Lemma scenario_does_not_score_fifty :
  ~ exists b,
      score_row Inputs.scenario = Ok b /\
      b_total_importance b = 10%float /\
      b_weights b = [0.5; 0.1; 0.1; 0.1; 0.1; 0.1]%float /\
      b_weighted_perf b = [0.5; 0.5; 0.5; 0.5; 0.5; 0.5]%float /\
      b_satisfaction b = 50%float.
Proof.
  intros [b [Hb [_ [_ [_ Hs]]]]].
  apply (f_equal (fun r => match r with
                           | Ok b => b_satisfaction b
                           | Raise _ => PrimFloat.nan
                           end)) in Hb.
  rewrite Hs in Hb. revert Hb. vm_compute. float_neq.
Qed.

(** A frame with a written customer name hands Python floats to the
    loop. *)
Lemma row_dtype_object {F : Type} `{Number F} (df : DataFrame F) (named : Row F)
  (s : string) :
  In named df -> Customer_Name named = Text s -> row_dtype df = object.
Proof.
  intros Hin Hname. unfold row_dtype.
  assert (Hex : existsb (fun row => is_text (Customer_Name row)) df = true).
  { apply existsb_exists. exists named. split; [assumption|].
    rewrite Hname. reflexivity. }
  rewrite Hex. reflexivity.
Qed.

(** C3, as the script has it: in a sheet with a written customer name a
    record whose importances add up to zero makes the scorer raise
    [ZeroDivisionError]; the exception ends the customer loop and the
    run, so no store, and with it no average customer satisfaction,
    comes out of it. *)
Theorem zero_total_importance_raises :
  forall (F : Type) (N : Number F) (O : Ordered F) (df : DataFrame F)
         (row named : Row F) (s : string),
    In row df ->
    is_zero (py_sum (importance_of row)) = true ->
    In named df ->
    Customer_Name named = Text s ->
    score_row row = Raise ZeroDivisionError /\
    dashboard df = Raise ZeroDivisionError /\
    forall to_numeric_text df_raw,
      load to_numeric_text df_raw = Ok df ->
      run to_numeric_text df_raw = Raise ZeroDivisionError.
Proof.
  intros F N O df row named s Hin Hz Hnamed Hname.
  assert (Hd : dashboard df = Raise ZeroDivisionError).
  { unfold dashboard, sections.
    rewrite (row_dtype_object df named s Hnamed Hname).
    rewrite (iterrows_raises object df row Hin Hz). reflexivity. }
  split; [apply score_row_zero; assumption|].
  split; [assumption|].
  intros parse raw Hload. unfold run. rewrite Hload. cbn [bind]. assumption.
Qed.

Lemma zero_total_importance_raises_witness :
  score_row Inputs.indifferent = Raise ZeroDivisionError /\
  dashboard [Inputs.scenario; Inputs.indifferent] = Raise ZeroDivisionError.
Proof.
  destruct (zero_total_importance_raises float binary64 binary64_order
              [Inputs.scenario; Inputs.indifferent] Inputs.indifferent
              Inputs.scenario "Acme"
              (or_intror (or_introl eq_refl)) eq_refl
              (or_introl eq_refl) eq_refl) as [Hs [Hd _]].
  split; assumption.
Defined.

(** C3, as the specification has it, fails on a sheet that names its
    customers by number: the customer whose importances add up to zero
    is scored without any signal, the percentage is the missing value,
    and so is the average customer satisfaction of the run, which goes
    through to the key takeaways. *)
Lemma numbered_customers_are_scored_nan :
  exists st takeaways,
    run Inputs.no_text Inputs.numbered_sheet = Ok (st, takeaways) /\
    map b_total_importance (shown st) = [0; 10]%float /\
    ratings st = [PrimFloat.nan; 60]%float /\
    avg_customer_sat st = PrimFloat.nan.
Proof.
  eexists. eexists. split; [vm_compute; reflexivity|].
  repeat split; vm_compute; reflexivity.
Qed.

(** The same ratings under written names end the run. *)
Lemma named_customers_end_the_run :
  run Inputs.no_text Inputs.named_sheet = Raise ZeroDivisionError.
Proof. vm_compute. reflexivity. Qed.

(** ** Weights *)

Section ExactSums.

Local Open Scope R_scope.

Lemma fold_add_real (l : list xreal) :
  forall acc t,
    fold_left add l acc = Real t ->
    exists xs a, l = map Real xs /\ acc = Real a /\ t = fold_left Rplus xs a.
Proof.
  induction l as [|x l IH]; intros acc t Hsum; simpl in Hsum.
  - exists [], t. repeat split. assumption.
  - destruct (IH _ _ Hsum) as [xs [a [Hl [Hacc Ht]]]].
    destruct acc as [a0|], x as [x0|]; simpl in Hacc; try discriminate.
    inversion Hacc. subst a.
    exists (x0 :: xs), a0. subst l. repeat split. assumption.
Qed.

Lemma fold_add_map_real (xs : list R) (a : R) :
  fold_left add (map Real xs) (Real a) = Real (fold_left Rplus xs a).
Proof.
  revert a. induction xs as [|x xs IH]; intros a; simpl; [reflexivity|].
  apply IH.
Qed.

Lemma fold_plus_div (t : R) (xs : list R) (a : R) :
  fold_left Rplus (map (fun x => x / t) xs) (a / t) = fold_left Rplus xs a / t.
Proof.
  revert a. induction xs as [|x xs IH]; intros a; simpl; [reflexivity|].
  replace (a / t + x / t) with ((a + x) / t) by (unfold Rdiv; ring).
  apply IH.
Qed.

Lemma map_div_real (t : R) (xs : list R) :
  t <> 0 ->
  map (fun imp => div imp (Real t)) (map Real xs) = map Real (map (fun x => x / t) xs).
Proof.
  intros Ht. induction xs as [|x xs IH]; cbn [map]; [reflexivity|].
  rewrite IH. simpl. destruct (Req_dec_T t 0); [contradiction | reflexivity].
Qed.

Lemma is_zero_real (t : R) : t <> 0 -> is_zero (Real t) = false.
Proof.
  intros Ht. simpl. destruct (Req_dec_T t 0); [contradiction | reflexivity].
Qed.

(** In exact arithmetic the weights of a record with a total that is a
    non-zero number add up to one, and every importance is a number. *)
Lemma exact_weights (row : Row xreal) (t : R) :
  py_sum (importance_of row) = Real t ->
  t <> 0 ->
  exists b xs,
    score_row row = Ok b /\
    importance_of row = map Real xs /\
    t = fold_left Rplus xs 0 /\
    b_weights b = map Real (map (fun x => x / t) xs) /\
    py_sum (b_weights b) = Real 1.
Proof.
  intros Hsum Ht.
  destruct (score_row_nonzero row) as [b [Hb [_ [_ [_ [_ [Hw _]]]]]]].
  { rewrite Hsum. apply is_zero_real. assumption. }
  destruct (fold_add_real _ _ _ Hsum) as [xs [a [Hl [Ha Hfold]]]].
  simpl in Ha. inversion Ha. subst a.
  exists b, xs. split; [assumption|]. split; [assumption|].
  split; [assumption|].
  rewrite Hsum, Hl, (map_div_real t xs Ht) in Hw.
  split; [assumption|].
  rewrite Hw. unfold py_sum. simpl of_Z. rewrite fold_add_map_real.
  replace 0 with (0 / t) at 1 by (unfold Rdiv; ring).
  rewrite fold_plus_div, <- Hfold. f_equal. field. assumption.
Qed.

End ExactSums.

Lemma in_lists_over {A} (alphabet : list A) (l : list A) :
  Forall (fun x => In x alphabet) l ->
  In l (lists_over alphabet (List.length l)).
Proof.
  induction 1 as [|x l Hx _ IH]; simpl; [left; reflexivity|].
  apply in_flat_map. exists x. split; [assumption|].
  apply in_map. assumption.
Qed.

(** Every list of six ratings on the scale, tried one by one. *)
Lemma rating_scale_within_tolerance :
  forallb weights_within_tolerance (lists_over rating_scale 6) = true.
Proof. vm_compute. reflexivity. Qed.

(** C4, as far as it holds.  In exact arithmetic the weights of every
    record with a positive total importance add up to one, so within
    1e-9 of it.  In double precision they add up to one within 1e-9 for
    every record whose six importances are whole ratings from 0 to 5 with
    a positive total. *)
Theorem weights_sum_to_one :
  (forall (row : Row xreal) (t : R),
      py_sum (importance_of row) = Real t ->
      (0 < t)%R ->
      exists b s,
        score_row row = Ok b /\
        py_sum (b_weights b) = Real s /\
        (Rabs (s - 1) <= 1 / 1000000000)%R) /\
  (forall row : Row float,
      Forall (fun x => In x rating_scale) (importance_of row) ->
      PrimFloat.ltb 0 (py_sum (importance_of row)) = true ->
      exists b,
        score_row row = Ok b /\
        PrimFloat.leb (PrimFloat.abs (py_sum (b_weights b) - 1)) 1e-9 = true).
Proof.
  split.
  - intros row t Hsum Hpos.
    destruct (exact_weights row t Hsum) as [b [xs [Hb [_ [_ [_ Hone]]]]]]; [lra|].
    exists b, 1%R. split; [assumption|]. split; [assumption|].
    replace (1 - 1)%R with 0%R by ring. rewrite Rabs_R0. lra.
  - intros row Hscale Hpos.
    pose proof (in_lists_over rating_scale _ Hscale) as Hin.
    change (List.length (importance_of row)) with 6%nat in Hin.
    pose proof rating_scale_within_tolerance as Hall.
    rewrite forallb_forall in Hall. specialize (Hall _ Hin).
    unfold weights_within_tolerance in Hall. rewrite Hpos in Hall.
    unfold score_row, score. cbn [divide].
    destruct (comprehension _ (importance_of row)) as [weights|e]; [|discriminate].
    simpl. eexists. split; [reflexivity|]. simpl. assumption.
Qed.

Lemma weights_sum_to_one_witness :
  (exists b s,
      score_row Inputs.exact_scenario = Ok b /\
      py_sum (b_weights b) = Real s /\
      (Rabs (s - 1) <= 1 / 1000000000)%R) /\
  (exists b,
      score_row Inputs.scenario = Ok b /\
      PrimFloat.leb (PrimFloat.abs (py_sum (b_weights b) - 1)) 1e-9 = true).
Proof.
  assert (Hsum : py_sum (importance_of Inputs.exact_scenario)
                 = Real (0 + 5 + 1 + 1 + 1 + 1 + 1)%R) by reflexivity.
  assert (Hpos : (0 < 0 + 5 + 1 + 1 + 1 + 1 + 1)%R) by lra.
  assert (Hscale : Forall (fun x => In x rating_scale) (importance_of Inputs.scenario))
    by (vm_compute;
        repeat (apply Forall_cons; [repeat (first [left; reflexivity | right])|]);
        apply Forall_nil).
  assert (Hlt : PrimFloat.ltb 0 (py_sum (importance_of Inputs.scenario)) = true)
    by (vm_compute; reflexivity).
  exact (conj (proj1 weights_sum_to_one Inputs.exact_scenario _ Hsum Hpos)
              (proj2 weights_sum_to_one Inputs.scenario Hscale Hlt)).
Defined.

(** C4 as stated fails in double precision outside the rating scale:
    two importances of 9e307 add up to infinity, a positive total, every
    weight is then 0.0, and the weights add up to 0.0. *)
Lemma astronomical_weights_sum_to_zero :
  exists b,
    score_row Inputs.astronomical = Ok b /\
    PrimFloat.ltb 0 (b_total_importance b) = true /\
    py_sum (b_weights b) = 0%float /\
    PrimFloat.leb (PrimFloat.abs (py_sum (b_weights b) - 1)) 1e-9 = false.
Proof.
  eexists. split; [vm_compute; reflexivity|].
  repeat split; vm_compute; reflexivity.
Qed.

(** ** The company figures *)

Section SummaryFacts.

Context {F : Type} `{Number F}.

Lemma dropna_column (df : DataFrame F) (col : string) :
  dropna (column df col) =
  map (fun row => get row col) (filter (fun row => negb (is_nan (get row col))) df).
Proof.
  unfold dropna, column. induction df as [|row df IH]; simpl; [reflexivity|].
  destruct (is_nan (get row col)); simpl; rewrite IH; reflexivity.
Qed.

Lemma Series_mean_column (df : DataFrame F) (col : string) :
  Series_mean (column df col) = mean_over_present df col.
Proof.
  unfold Series_mean, mean_over_present.
  rewrite dropna_column, length_map. reflexivity.
Qed.

Lemma summarise_means (df : DataFrame F) :
  summarise df =
  map (fun c =>
         {| Category := c;
            Importance := mean_over_present df (Importance_of c);
            Performance := mean_over_present df (Performance_of c);
            Gap := sub (mean_over_present df (Performance_of c))
                       (mean_over_present df (Importance_of c)) |})
      categories.
Proof.
  unfold summarise. apply map_ext. intros c.
  rewrite !Series_mean_column. reflexivity.
Qed.

Lemma sections_store (d : dtype) (df : DataFrame F) (st : Store F) :
  sections d df = Ok st ->
  summary st = summarise df /\
  imp_avg st = Series_mean (map Importance (summarise df)) /\
  perf_avg st = Series_mean (map Performance (summarise df)) /\
  CSI st = mul (div (perf_avg st) (imp_avg st)) (of_Z 100) /\
  avg_customer_sat st = np_mean (ratings st) /\
  variation st =
    map (fun c => (c, np_std (column df (Performance_of c)))) categories.
Proof.
  unfold sections. intros Hd.
  destruct (iterrows d df [] []) as [out|e]; simpl in Hd; [|discriminate].
  inversion Hd. simpl. repeat split; reflexivity.
Qed.

Lemma display_store (df : DataFrame F) (st : Store F) :
  display df = Ok st ->
  summary st = summarise df /\
  imp_avg st = Series_mean (map Importance (summarise df)) /\
  perf_avg st = Series_mean (map Performance (summarise df)) /\
  CSI st = mul (div (perf_avg st) (imp_avg st)) (of_Z 100) /\
  avg_customer_sat st = np_mean (ratings st) /\
  variation st =
    map (fun c => (c, np_std (column df (Performance_of c)))) categories.
Proof. exact (sections_store object df st). Qed.

Lemma display_CSI (df : DataFrame F) (st : Store F) :
  display df = Ok st -> CSI st = spec_CSI df.
Proof.
  intros Hd. destruct (display_store df st Hd) as [_ [Hi [Hp [Hc _]]]].
  rewrite Hc, Hi, Hp, summarise_means, !map_map. reflexivity.
Qed.

Lemma display_avg_customer_sat (df : DataFrame F) (st : Store F) :
  display df = Ok st ->
  avg_customer_sat st = spec_avg_customer_satisfaction pct df.
Proof.
  intros Hd. destruct (display_store df st Hd) as [_ [_ [_ [_ [Ha _]]]]].
  rewrite Ha, (display_ratings df st Hd).
  unfold np_mean, spec_avg_customer_satisfaction. rewrite length_map. reflexivity.
Qed.

End SummaryFacts.

(** C5: the index is the mean over the categories of the average
    performance, divided by the mean over the categories of the average
    importance, times 100; the average customer satisfaction is the mean
    over the customers of their percentages; and the two are different
    numbers for the scenario customer. *)
Theorem CSI_is_ratio_of_means_and_differs_from_average :
  (forall (F : Type) (N : Number F) (df : DataFrame F) (st : Store F),
      display df = Ok st ->
      CSI st = spec_CSI df /\
      avg_customer_sat st = spec_avg_customer_satisfaction pct df) /\
  (exists st,
      display [Inputs.scenario] = Ok st /\
      CSI st <> avg_customer_sat st).
Proof.
  split.
  - intros F N df st Hd. split.
    + apply display_CSI. assumption.
    + apply display_avg_customer_sat. assumption.
  - eexists. split; [vm_compute; reflexivity|].
    vm_compute. float_neq.
Qed.

Lemma CSI_is_ratio_of_means_and_differs_from_average_witness :
  exists st,
    display [Inputs.scenario] = Ok st /\
    CSI st = spec_CSI [Inputs.scenario] /\
    avg_customer_sat st = spec_avg_customer_satisfaction pct [Inputs.scenario].
Proof.
  destruct (display [Inputs.scenario]) as [st|e] eqn:Hd.
  - exists st. split; [reflexivity|].
    exact (proj1 CSI_is_ratio_of_means_and_differs_from_average
             float binary64 [Inputs.scenario] st Hd).
  - exfalso. vm_compute in Hd. discriminate.
Defined.

(** ** The range of the percentage *)

Section ExactRange.

Local Open Scope R_scope.

Lemma fold_plus_sumR (l : list R) (a : R) : fold_left Rplus l a = a + sumR l.
Proof.
  revert a. induction l as [|x l IH]; intros a; simpl; [ring|].
  rewrite IH. ring.
Qed.

Lemma sumR_div (t : R) (xs : list R) :
  sumR (map (fun x => x / t) xs) = sumR xs / t.
Proof.
  induction xs as [|x xs IH]; simpl; [unfold Rdiv; ring|].
  rewrite IH. unfold Rdiv. ring.
Qed.

Lemma map_mul_real (ps ws : list R) :
  map (fun pw => mul (fst pw) (snd pw)) (combine (map Real ps) (map Real ws)) =
  map Real (map (fun pw => fst pw * snd pw) (combine ps ws)).
Proof.
  revert ws. induction ps as [|p ps IH]; intros ws; simpl; [reflexivity|].
  destruct ws as [|w ws]; simpl; [reflexivity|].
  rewrite IH. reflexivity.
Qed.

(** A weighted sum of marks between 0 and 5 with non-negative weights
    lies between 0 and 5 times the sum of the weights. *)
Lemma weighted_sum_bounds (ps ws : list R) :
  Forall (fun p => 0 <= p <= 5) ps ->
  Forall (fun w => 0 <= w) ws ->
  0 <= sumR (map (fun pw => fst pw * snd pw) (combine ps ws)) <= 5 * sumR ws.
Proof.
  intros Hps. revert ws.
  induction Hps as [|p ps Hp _ IH]; intros ws Hws; simpl.
  - assert (0 <= sumR ws).
    { induction Hws as [|w ws Hw _ IHw]; simpl; lra. }
    lra.
  - destruct Hws as [|w ws Hw Hws]; simpl; [lra|].
    specialize (IH ws Hws). nra.
Qed.

Lemma weights_nonneg (t : R) (xs : list R) :
  0 < t -> Forall (fun x => 0 <= x) xs ->
  Forall (fun w => 0 <= w) (map (fun x => x / t) xs).
Proof.
  intros Ht. induction 1 as [|x xs Hx _ IH]; simpl; constructor; [|assumption].
  apply Rmult_le_pos; [assumption|].
  apply Rlt_le, Rinv_0_lt_compat. assumption.
Qed.

Lemma map_Real_inj (xs ys : list R) : map Real xs = map Real ys -> xs = ys.
Proof.
  revert ys. induction xs as [|x xs IH]; intros [|y ys] E; simpl in E;
    try discriminate; [reflexivity|].
  inversion E. f_equal. apply IH. assumption.
Qed.

(** In exact arithmetic, marks between 0 and 5 weighted by importances
    that are non-negative numbers with a positive total give a
    percentage between 0 and 100. *)
Lemma exact_satisfaction_range (row : Row xreal) (imps perfs : list R) :
  importance_of row = map Real imps ->
  performance_of row = map Real perfs ->
  Forall (fun x => 0 <= x) imps ->
  0 < sumR imps ->
  Forall (fun p => 0 <= p <= 5) perfs ->
  exists b s,
    score_row row = Ok b /\ b_satisfaction b = Real s /\ 0 <= s <= 100.
Proof.
  intros Himp Hperf Hnn Hpos Hmarks.
  set (t := sumR imps) in *.
  assert (Hsum : py_sum (importance_of row) = Real t).
  { rewrite Himp. unfold py_sum. simpl of_Z. rewrite fold_add_map_real.
    rewrite fold_plus_sumR. f_equal. unfold t. ring. }
  assert (Ht : t <> 0) by lra.
  unfold score_row, score. cbn [divide].
  rewrite comprehension_truediv, Hsum, (is_zero_real t Ht), Himp, Hperf.
  rewrite (map_div_real t imps Ht). simpl bind.
  eexists. eexists. split; [reflexivity|]. simpl b_satisfaction.
  rewrite map_mul_real. unfold py_sum. simpl of_Z.
  rewrite fold_add_map_real, fold_plus_sumR.
  pose proof (weighted_sum_bounds perfs (map (fun x => x / t) imps) Hmarks
                (weights_nonneg t imps Hpos Hnn)) as Hb.
  rewrite sumR_div in Hb.
  replace (sumR imps / t) with 1 in Hb by (unfold t; field; exact Ht).
  set (S := sumR _) in *.
  simpl. destruct (Req_dec_T 5 0) as [E|_]; [lra|].
  split; [reflexivity|]. lra.
Qed.

End ExactRange.

(** C6, as far as it holds: for every record with the six categories
    whose performances lie between 0 and 5 and whose importances are
    non-negative numbers with a positive total, the percentage computed
    in exact arithmetic lies between 0 and 100. *)
Theorem satisfaction_between_0_and_100 :
  forall (row : Row xreal) (imps perfs : list R),
    importance_of row = map Real imps ->
    performance_of row = map Real perfs ->
    List.length perfs = List.length categories ->
    Forall (fun x => (0 <= x)%R) imps ->
    (0 < sumR imps)%R ->
    Forall (fun p => (0 <= p <= 5)%R) perfs ->
    exists b s,
      score_row row = Ok b /\ b_satisfaction b = Real s /\ (0 <= s <= 100)%R.
Proof.
  intros row imps perfs Himp Hperf _ Hnn Hpos Hmarks.
  exact (exact_satisfaction_range row imps perfs Himp Hperf Hnn Hpos Hmarks).
Qed.

Lemma satisfaction_between_0_and_100_witness :
  exists b s,
    score_row Inputs.exact_scenario = Ok b /\
    b_satisfaction b = Real s /\ (0 <= s <= 100)%R.
Proof.
  apply (satisfaction_between_0_and_100 Inputs.exact_scenario
           [5; 1; 1; 1; 1; 1]%R [1; 5; 5; 5; 5; 5]%R).
  - reflexivity.
  - reflexivity.
  - reflexivity.
  - repeat constructor; lra.
  - simpl. lra.
  - repeat constructor; lra.
Defined.

(** C6 as stated fails twice over.  With every rating on the scale and
    every performance at 5, double precision gives a percentage above
    100; and with a negative importance the percentage is 200. *)
Lemma satisfaction_can_leave_0_100 :
  (exists b,
      score_row Inputs.delighted = Ok b /\
      List.length (b_performance b) = List.length categories /\
      forallb (fun p => PrimFloat.leb 0 p && PrimFloat.leb p 5) (b_performance b) = true /\
      b_satisfaction b = 100.00000000000003%float /\
      PrimFloat.leb (b_satisfaction b) 100 = false) /\
  (exists b,
      score_row Inputs.contrarian = Ok b /\
      List.length (b_performance b) = List.length categories /\
      forallb (fun p => PrimFloat.leb 0 p && PrimFloat.leb p 5) (b_performance b) = true /\
      b_satisfaction b = 200%float /\
      PrimFloat.leb (b_satisfaction b) 100 = false).
Proof.
  split; (eexists; split; [vm_compute; reflexivity|]);
    repeat split; vm_compute; reflexivity.
Qed.

(** ** A sheet without customers *)

Section LoadingFacts.

Context {F : Type} `{Number F}.

Variable to_numeric_text : string -> F.

Lemma notna_strip (c : cell F) : notna (applymap_strip c) = notna c.
Proof. destruct c; reflexivity. Qed.

Lemma iloc_columns_wide (w : nat) (r : list (cell F)) :
  (14 <= w)%nat ->
  iloc_columns w r = map (fun j => nth j r Blank) (seq 1 13).
Proof.
  intros Hw. unfold iloc_columns.
  replace (Nat.min 13 (w - 1)) with 13%nat by lia. reflexivity.
Qed.

Lemma clean_row_name (w : nat) (r : list (cell F)) :
  (14 <= w)%nat ->
  Customer_Name (clean_row to_numeric_text (iloc_columns w r)) =
  applymap_strip (nth 1 r Blank).
Proof.
  intros Hw. rewrite (iloc_columns_wide w r Hw). reflexivity.
Qed.

(** The rows that stay are the rows with a name, whatever their other
    cells hold. *)
Lemma load_names (df_raw : list (list (cell F))) (df : DataFrame F) :
  load to_numeric_text df_raw = Ok df ->
  map Customer_Name df =
  filter notna (map (fun r => applymap_strip (nth 1 r Blank)) (skipn 3 df_raw)).
Proof.
  unfold load. set (w := width df_raw). generalize (skipn 3 df_raw) as body.
  intros body.
  destruct (Nat.eqb (Nat.min 13 (w - 1)) (List.length columns)) eqn:Hw; [|discriminate].
  apply Nat.eqb_eq in Hw. change (List.length columns) with 13%nat in Hw.
  assert (Hwide : (14 <= w)%nat) by lia.
  intros Hok. injection Hok as <-.
  induction body as [|r rest IH]; cbn [map filter]; [reflexivity|].
  rewrite (clean_row_name w r Hwide).
  destruct (notna (applymap_strip (nth 1 r Blank))); cbn [map].
  - rewrite (clean_row_name w r Hwide). f_equal. apply IH.
  - apply IH.
Qed.

Lemma load_nameless (df_raw : list (list (cell F))) :
  (14 <= width df_raw)%nat ->
  Forall (fun r => notna (nth 1 r Blank) = false) (skipn 3 df_raw) ->
  load to_numeric_text df_raw = Ok [].
Proof.
  intros Hw Hall. unfold load.
  replace (Nat.min 13 (width df_raw - 1)) with 13%nat by lia. simpl Nat.eqb.
  cbv iota. f_equal.
  induction Hall as [|r rest Hr _ IH]; cbn [map filter]; [reflexivity|].
  rewrite (clean_row_name _ r Hw), notna_strip, Hr. apply IH.
Qed.

End LoadingFacts.

(** C7, as the script has it: when every data row of the sheet lacks a
    name, nothing marks the dataset as empty; the customer loop leaves
    the ratings empty and the aggregates are computed all the same,
    each of them the missing value: the category averages and gaps, the
    index, the average customer satisfaction and the consistency
    figures.  The run ends after them, at the priorities chart, whose
    shares are missing values that matplotlib refuses with
    [ValueError]. *)
Theorem nameless_sheet_yields_nan_aggregates :
  forall (to_numeric_text : string -> float) (df_raw : list (list (cell float))),
    (14 <= width df_raw)%nat ->
    Forall (fun r => notna (nth 1 r Blank) = false) (skipn 3 df_raw) ->
    load to_numeric_text df_raw = Ok [] /\
    sections (row_dtype ([] : DataFrame float)) [] = Ok Inputs.empty_store /\
    analyse to_numeric_text df_raw = Ok Inputs.empty_store /\
    ax_pie (weights_total (summary Inputs.empty_store)) = Raise ValueError /\
    run to_numeric_text df_raw = Raise ValueError.
Proof.
  intros parse df_raw Hw Hall.
  pose proof (load_nameless parse df_raw Hw Hall) as Hload.
  split; [assumption|].
  split; [vm_compute; reflexivity|].
  split; [unfold analyse; rewrite Hload; vm_compute; reflexivity|].
  split; [vm_compute; reflexivity|].
  unfold run. rewrite Hload. vm_compute. reflexivity.
Qed.

Lemma nameless_sheet_yields_nan_aggregates_witness :
  load Inputs.no_text Inputs.nameless_sheet = Ok [] /\
  analyse Inputs.no_text Inputs.nameless_sheet = Ok Inputs.empty_store /\
  run Inputs.no_text Inputs.nameless_sheet = Raise ValueError.
Proof.
  assert (Hw : (14 <= width Inputs.nameless_sheet)%nat) by (vm_compute; lia).
  assert (Hall : Forall (fun r : list (cell float) => notna (nth 1 r Blank) = false)
                   (skipn 3 Inputs.nameless_sheet))
    by (repeat constructor).
  destruct (nameless_sheet_yields_nan_aggregates Inputs.no_text Inputs.nameless_sheet
              Hw Hall) as [Hload [_ [Ha [_ Hrun]]]].
  split; [exact Hload|]. split; [exact Ha | exact Hrun].
Defined.

(** C7 as stated fails: for the sheet whose only data row has no name
    the script does go on to compute the aggregates, every one of them
    the missing value, and what ends the run afterwards is the
    [ValueError] of the priorities chart and no notice of an empty
    dataset. *)
Lemma nameless_sheet_is_analysed :
  analyse Inputs.no_text Inputs.nameless_sheet = Ok Inputs.empty_store /\
  CSI Inputs.empty_store = PrimFloat.nan /\
  avg_customer_sat Inputs.empty_store = PrimFloat.nan /\
  run Inputs.no_text Inputs.nameless_sheet = Raise ValueError.
Proof.
  split; [vm_compute; reflexivity|].
  split; [reflexivity|]. split; [reflexivity|].
  vm_compute. reflexivity.
Qed.

(** ** Consistency *)

Lemma np_std_nonempty {F : Type} `{Number F} (s : list F) :
  dropna s <> [] ->
  np_std s = population_standard_deviation (dropna s).
Proof.
  intros Hne. unfold np_std, Series_std, population_standard_deviation.
  destruct (dropna s) as [|x values]; [contradiction|].
  assert (Hcount : (Z.of_nat (List.length (x :: values)) <=? 0)%Z = false).
  { apply Z.leb_gt. simpl List.length. lia. }
  rewrite Hcount, Z.sub_0_r. reflexivity.
Qed.

Lemma np_std_binary64 (s : list float) :
  np_std s = population_standard_deviation (dropna s).
Proof.
  destruct (dropna s) as [|x values] eqn:Hd.
  - unfold np_std, Series_std. rewrite Hd. reflexivity.
  - rewrite <- Hd. apply np_std_nonempty. rewrite Hd. discriminate.
Qed.

Lemma np_std_exact (s : list xreal) :
  np_std s = population_standard_deviation (dropna s).
Proof.
  destruct (dropna s) as [|x values] eqn:Hd.
  - unfold np_std, Series_std, population_standard_deviation. rewrite Hd.
    simpl. destruct (Req_dec_T 0 0) as [_|Hn]; [reflexivity | contradiction Hn; reflexivity].
  - rewrite <- Hd. apply np_std_nonempty. rewrite Hd. discriminate.
Qed.

Section Textbook.

Local Open Scope R_scope.

Lemma map_sqdist_real (m : R) (xs : list R) :
  map (fun x => mul (sub (Real m) x) (sub (Real m) x)) (map Real xs) =
  map Real (map (fun x => (m - x) * (m - x)) xs).
Proof.
  induction xs as [|x xs IH]; simpl; [reflexivity|].
  f_equal. exact IH.
Qed.

Lemma sumR_nonneg (l : list R) : Forall (fun x => 0 <= x) l -> 0 <= sumR l.
Proof. induction 1 as [|x l Hx _ IH]; simpl; lra. Qed.

(** On real numbers the population standard deviation is the textbook
    one: the root of the sum of the squares of [x - mu] over [n], where
    [mu] is the sum of the values over [n]. *)
Lemma population_standard_deviation_real (xs : list R) :
  xs <> [] ->
  let n := INR (List.length xs) in
  let mu := sumR xs / n in
  population_standard_deviation (map Real xs) =
  Real (R_sqrt.sqrt (sumR (map (fun x => (x - mu) * (x - mu)) xs) / n)).
Proof.
  intros Hne n mu.
  assert (Hn : 0 < n).
  { unfold n. destruct xs; [contradiction|]. apply lt_0_INR. simpl. lia. }
  unfold population_standard_deviation. rewrite length_map.
  assert (Hof : of_Z (Z.of_nat (List.length xs)) = Real n).
  { simpl. unfold n. rewrite INR_IZR_INZ. reflexivity. }
  assert (Hsum : py_sum (map Real xs) = Real (0 + sumR xs)).
  { unfold py_sum. simpl of_Z. rewrite fold_add_map_real, fold_plus_sumR. reflexivity. }
  rewrite Hof, !Hsum.
  assert (Hmu : div (Real (0 + sumR xs)) (Real n) = Real mu).
  { simpl. destruct (Req_dec_T n 0); [lra|]. unfold mu. f_equal. field. lra. }
  rewrite Hmu, map_sqdist_real. unfold py_sum. simpl of_Z.
  rewrite fold_add_map_real, fold_plus_sumR.
  assert (Hsq : 0 + sumR (map (fun x => (mu - x) * (mu - x)) xs)
                = sumR (map (fun x => (x - mu) * (x - mu)) xs)).
  { rewrite Rplus_0_l. f_equal. apply map_ext. intros x. ring. }
  rewrite Hsq.
  assert (Hpos : 0 <= sumR (map (fun x => (x - mu) * (x - mu)) xs)).
  { apply sumR_nonneg. apply Forall_forall. intros y Hy.
    apply in_map_iff in Hy. destruct Hy as [x [<- _]].
    apply (Rle_0_sqr (x - mu)). }
  simpl. destruct (Req_dec_T n 0); [lra|]. simpl.
  match goal with
  | |- context [Rlt_dec ?a ?b] => destruct (Rlt_dec a b) as [Hneg|_]
  end; [|reflexivity].
  exfalso. apply (Rlt_not_le _ _ Hneg).
  apply Rmult_le_pos; [assumption|]. apply Rlt_le, Rinv_0_lt_compat. assumption.
Qed.

Lemma dropna_numbers (s : list xreal) : dropna s = map Real (numbers s).
Proof.
  unfold dropna. induction s as [|[x|] s IH]; cbn [filter numbers map].
  - reflexivity.
  - change (is_nan (Real x)) with false. cbn [negb]. f_equal. exact IH.
  - change (is_nan NaN) with true. cbn [negb]. exact IH.
Qed.

(** In exact arithmetic [np.std] of a column is the population standard
    deviation of its numbers. *)
Lemma np_std_sigma (s : list xreal) : np_std s = sigma (numbers s).
Proof.
  rewrite np_std_exact, dropna_numbers.
  destruct (numbers s) as [|x xs] eqn:Hn.
  - unfold population_standard_deviation. simpl.
    destruct (Req_dec_T 0 0) as [_|Hne]; [reflexivity | contradiction Hne; reflexivity].
  - rewrite population_standard_deviation_real by discriminate. reflexivity.
Qed.

Lemma sigma_one (a : R) : sigma [a] = Real 0.
Proof.
  unfold sigma. cbn [List.length sumR fold_right map]. simpl INR. f_equal.
  replace ((a - (a + 0) / 1) * (a - (a + 0) / 1) + 0) with 0 by (field).
  replace (0 / 1) with 0 by field. apply sqrt_0.
Qed.

Lemma sigma_two (a b : R) : sigma [a; b] = Real (Rabs (a - b) / 2).
Proof.
  unfold sigma. cbn [List.length sumR fold_right map]. simpl INR. f_equal.
  replace (((a - (a + (b + 0)) / (1 + 1)) * (a - (a + (b + 0)) / (1 + 1))
            + ((b - (a + (b + 0)) / (1 + 1)) * (b - (a + (b + 0)) / (1 + 1)) + 0))
           / (1 + 1))
    with (Rsqr ((a - b) / 2)) by (unfold Rsqr; field).
  rewrite sqrt_Rsqr_abs. unfold Rdiv. rewrite Rabs_mult.
  f_equal. apply Rabs_pos_eq.
  apply Rlt_le, Rinv_0_lt_compat. lra.
Qed.

End Textbook.

Lemma dropna_present (df : DataFrame float) (col : string) :
  dropna (column df col) = present df col.
Proof.
  unfold dropna, column.
  induction df as [|row df IH]; cbn [map filter present]; [reflexivity|].
  change (is_nan (get row col)) with (PrimFloat.is_nan (get row col)).
  destruct (PrimFloat.is_nan (get row col)); cbn [negb];
    [exact IH | f_equal; exact IH].
Qed.

(** C8: for every category the figure of the consistency table is the
    population standard deviation of the performances recorded in that
    category, customer by customer, a missing one being left out: the
    root of the mean squared distance to their mean, the divisor being
    their number.  In exact arithmetic this holds of every dataset; in
    double precision the same formula, with its sums taken from left to
    right, is what the table holds for a dataset of fewer than eight
    customers. *)
Theorem dispersion_is_population_standard_deviation :
  (forall (d : dtype) (df : DataFrame xreal) (st : Store xreal),
      sections d df = Ok st ->
      variation st =
      map (fun c => (c, sigma (recorded_performances df c))) categories) /\
  (forall (d : dtype) (df : DataFrame float) (st : Store float),
      (List.length df < 8)%nat ->
      sections d df = Ok st ->
      variation st =
      map (fun c =>
             (c, population_standard_deviation (present df (Performance_of c))))
          categories).
Proof.
  split.
  - intros d df st Hd.
    destruct (sections_store d df st Hd) as [_ [_ [_ [_ [_ Hv]]]]].
    rewrite Hv. apply map_ext. intros c.
    rewrite np_std_sigma. reflexivity.
  - intros d df st _ Hd.
    destruct (sections_store d df st Hd) as [_ [_ [_ [_ [_ Hv]]]]].
    rewrite Hv. apply map_ext. intros c.
    rewrite np_std_binary64, dropna_present. reflexivity.
Qed.

Lemma dispersion_is_population_standard_deviation_witness :
  (exists st,
      display [Inputs.exact_scenario; Inputs.exact_second] = Ok st /\
      variation st =
      [("Timeliness", Real 1); ("Competence", Real 0); ("Clarity", Real 2);
       ("Quality", Real (1 / 2)); ("Service", Real 0); ("Pricing", Real 0)]%string) /\
  (exists st,
      display [Inputs.scenario; Inputs.delighted] = Ok st /\
      variation st =
      [("Timeliness", 2); ("Competence", 0); ("Clarity", 0);
       ("Quality", 0); ("Service", 0); ("Pricing", 0)]%float%string).
Proof.
  split.
  - assert (Hz : Forall (fun row : Row xreal =>
                           raises object (py_sum (importance_of row)) = false)
                   [Inputs.exact_scenario; Inputs.exact_second]).
    { assert (H1 : py_sum (importance_of Inputs.exact_scenario)
                   = Real (0 + 5 + 1 + 1 + 1 + 1 + 1)%R) by reflexivity.
      assert (H2 : py_sum (importance_of Inputs.exact_second)
                   = Real (0 + 1 + 1 + 1 + 1 + 1 + 1)%R) by reflexivity.
      apply Forall_cons; [cbn [raises]; rewrite H1; apply is_zero_real; lra|].
      apply Forall_cons; [cbn [raises]; rewrite H2; apply is_zero_real; lra|].
      apply Forall_nil. }
    destruct (iterrows_total object _ Hz [] []) as [out Hloop].
    assert (Hd : exists st,
               display [Inputs.exact_scenario; Inputs.exact_second] = Ok st).
    { unfold display, sections. rewrite Hloop. cbn [bind]. eexists. reflexivity. }
    destruct Hd as [st Hd]. exists st. split; [exact Hd|].
    rewrite (proj1 dispersion_is_population_standard_deviation object _ st Hd).
    cbn [map categories].
    change (recorded_performances [Inputs.exact_scenario; Inputs.exact_second]
              "Timeliness") with [1; 3]%R.
    change (recorded_performances [Inputs.exact_scenario; Inputs.exact_second]
              "Competence") with [5; 5]%R.
    change (recorded_performances [Inputs.exact_scenario; Inputs.exact_second]
              "Clarity") with [5; 1]%R.
    change (recorded_performances [Inputs.exact_scenario; Inputs.exact_second]
              "Quality") with [5; 4]%R.
    change (recorded_performances [Inputs.exact_scenario; Inputs.exact_second]
              "Service") with [5; 5]%R.
    change (recorded_performances [Inputs.exact_scenario; Inputs.exact_second]
              "Pricing") with [5]%R.
    rewrite !sigma_two, sigma_one.
    replace (Rabs (1 - 3) / 2)%R with 1%R
      by (rewrite Rabs_left by lra; lra).
    replace (Rabs (5 - 5) / 2)%R with 0%R
      by (rewrite Rabs_right by lra; lra).
    replace (Rabs (5 - 1) / 2)%R with 2%R
      by (rewrite Rabs_right by lra; lra).
    replace (Rabs (5 - 4) / 2)%R with (1 / 2)%R
      by (rewrite Rabs_right by lra; lra).
    reflexivity.
  - destruct (display [Inputs.scenario; Inputs.delighted]) as [st|e] eqn:Hd.
    + exists st. split; [reflexivity|].
      assert (Hlen : (List.length [Inputs.scenario; Inputs.delighted] < 8)%nat)
        by (simpl; lia).
      rewrite (proj2 dispersion_is_population_standard_deviation object _ st Hlen Hd).
      vm_compute. reflexivity.
    + exfalso. vm_compute in Hd. discriminate.
Defined.

(** The divisor is the number of values and not one less: for the values
    1 and 3 the table shows 1, where the sample standard deviation is
    the root of 2. *)
Lemma np_std_is_not_sample_std :
  np_std [1; 3]%float = 1%float /\
  Series_std 1 [1; 3]%float = PrimFloat.sqrt 2 /\
  np_std [1; 3]%float <> Series_std 1 [1; 3]%float.
Proof.
  split; [vm_compute; reflexivity|].
  split; [vm_compute; reflexivity|].
  vm_compute. float_neq.
Qed.

(** ** The two scoring passes *)

Section ExportFacts.

Context {F : Type} `{Number F}.

Lemma refill_total (d : dtype) (df : DataFrame F) :
  Forall (fun row => raises d (py_sum (importance_of row)) = false) df ->
  forall ratings, refill d df ratings = Ok (ratings ++ map pct df).
Proof.
  induction 1 as [|row rest Hz _ IH]; intros ratings.
  - simpl. rewrite app_nil_r. reflexivity.
  - cbn [refill]. rewrite comprehension_divide, Hz.
    change (refill d rest (ratings ++ [pct row]) = Ok (ratings ++ map pct (row :: rest))).
    rewrite IH, <- app_assoc. reflexivity.
Qed.

Lemma customer_sections_total (d : dtype) (df : DataFrame F) :
  Forall (fun row => raises d (py_sum (importance_of row)) = false) df ->
  forall html,
    exists sections,
      customer_sections d df html = Ok (html ++ sections) /\
      map s_satisfaction sections = map pct df /\
      map s_name sections = map Customer_Name df.
Proof.
  induction 1 as [|row rest Hz _ IH]; intros html.
  - exists []. simpl. rewrite app_nil_r. repeat split.
  - cbn [customer_sections]. rewrite comprehension_divide, Hz. cbv zeta. cbn [bind].
    match goal with
    | |- context [customer_sections d rest (html ++ [?sec])] =>
        destruct (IH (html ++ [sec])) as [sections [Hs [Hp Hn]]];
        exists (sec :: sections)
    end.
    split; [|split].
    + rewrite Hs, <- app_assoc. reflexivity.
    + cbn [map]. rewrite Hp. reflexivity.
    + cbn [map]. rewrite Hn. reflexivity.
Qed.

Lemma refill_iterrows (d : dtype) (df : DataFrame F) :
  forall ratings shown out,
    iterrows d df ratings shown = Ok out ->
    refill d df ratings = Ok (fst out).
Proof.
  intros ratings shown out Hrun.
  destruct (iterrows_ok d df ratings shown out Hrun) as [Hout Hall].
  rewrite Hout. apply refill_total. assumption.
Qed.

Lemma customer_sections_iterrows (d : dtype) (df : DataFrame F) :
  forall ratings shown out html,
    iterrows d df ratings shown = Ok out ->
    exists sections,
      customer_sections d df html = Ok (html ++ sections) /\
      fst out = ratings ++ map s_satisfaction sections /\
      map s_name sections = map Customer_Name df.
Proof.
  intros ratings shown out html Hrun.
  destruct (iterrows_ok d df ratings shown out Hrun) as [Hout Hall].
  destruct (customer_sections_total d df Hall html) as [sections [Hs [Hp Hn]]].
  exists sections. rewrite Hp. repeat split; assumption.
Qed.

(** What the export pass makes of a store whose ratings are in place. *)
Lemma export_with_ratings (d : dtype) (df : DataFrame F) (st : Store F)
  (ratings0 : list F) (sections : list (Section_ F)) :
  ratings st = ratings0 ->
  refill d df [] = Ok ratings0 ->
  customer_sections d df [] = Ok sections ->
  let avg := match ratings0 with [] => of_Z 0 | _ :: _ => np_mean ratings0 end in
  let imp := Series_mean (map Importance (summary st)) in
  let perf := Series_mean (map Performance (summary st)) in
  export_as d df st =
  Ok ({| ratings := ratings0;
         shown := shown st;
         summary := summary st;
         imp_avg := imp;
         perf_avg := perf;
         CSI := mul (div perf imp) (of_Z 100);
         avg_customer_sat := avg;
         variation := variation st |},
      {| r_total_customers := List.length df;
         r_CSI := mul (div perf imp) (of_Z 100);
         r_avg_satisfaction := avg;
         r_summary := summary st;
         r_customers := sections |}).
Proof.
  intros Hr Hfill Hs avg imp perf. unfold export_as.
  rewrite Hr.
  replace (if Nat.eqb (List.length ratings0) 0 then refill d df [] else Ok ratings0)
    with (Ok ratings0 : result (list F))
    by (destruct (Nat.eqb (List.length ratings0) 0); [symmetry; exact Hfill | reflexivity]).
  cbn [bind]. rewrite Hs. reflexivity.
Qed.

Lemma export_after_sections (d : dtype) (df : DataFrame F) (st : Store F) :
  sections d df = Ok st ->
  exists st' report,
    export_as d df st = Ok (st', report) /\
    map s_satisfaction (r_customers report) = ratings st /\
    map s_name (r_customers report) = map Customer_Name df /\
    ratings st' = ratings st /\
    CSI st' = CSI st /\
    export_as d df st' = Ok (st', report).
Proof.
  intros Hd.
  destruct (sections_store d df st Hd) as [Hsum [Hi [Hp [Hc _]]]].
  pose proof (sections_ratings d df st Hd) as Hr.
  pose proof (sections_nonzero d df st Hd) as Hall.
  pose proof (refill_total d df Hall []) as Hfill. simpl in Hfill.
  destruct (customer_sections_total d df Hall []) as [sections [Hs [Hsat Hn]]].
  simpl in Hs.
  pose proof (export_with_ratings d df st (map pct df) sections Hr Hfill Hs) as He.
  cbv zeta in He.
  eexists. eexists. split; [exact He|].
  cbn [r_customers ratings CSI].
  split; [rewrite Hr; exact Hsat|].
  split; [exact Hn|].
  split; [symmetry; exact Hr|].
  split; [rewrite Hc, Hi, Hp, Hsum; reflexivity|].
  match goal with
  | |- export_as d df ?s = _ =>
      exact (export_with_ratings d df s (map pct df) sections eq_refl Hfill Hs)
  end.
Qed.


(** The figures of the report after a pass over at least one customer. *)
Lemma export_figures (d : dtype) (df : DataFrame F) (st st' : Store F)
  (report : Report F) :
  df <> [] ->
  sections d df = Ok st ->
  export_as d df st = Ok (st', report) ->
  r_total_customers report = List.length df /\
  r_CSI report = CSI st /\
  r_summary report = summary st /\
  r_avg_satisfaction report = avg_customer_sat st /\
  ratings st' = ratings st.
Proof.
  intros Hne Hd He.
  destruct (sections_store d df st Hd) as [Hsum [Hi [Hp [Hc [Ha _]]]]].
  pose proof (sections_ratings d df st Hd) as Hr.
  pose proof (sections_nonzero d df st Hd) as Hall.
  pose proof (refill_total d df Hall []) as Hfill. simpl in Hfill.
  destruct (customer_sections_total d df Hall []) as [sections [Hs _]].
  simpl in Hs.
  pose proof (export_with_ratings d df st (map pct df) sections Hr Hfill Hs) as He'.
  cbv zeta in He'. rewrite He' in He. injection He as <- <-.
  cbn [r_total_customers r_CSI r_summary r_avg_satisfaction ratings].
  split; [reflexivity|].
  split; [rewrite Hc, Hi, Hp, Hsum; reflexivity|].
  split; [reflexivity|]. split.
  - rewrite Ha, Hr.
    destruct df as [|row df]; [contradiction Hne; reflexivity | reflexivity].
  - symmetry. exact Hr.
Qed.

End ExportFacts.



(** ** Missing values in the averages *)

(** C10: the rows that reach the averages are the rows with a name,
    whatever their numeric cells hold; and for every category the
    average importance and the average performance are the means over
    the records whose value in that very column is not missing. *)
Theorem category_averages_skip_missing_values :
  forall (F : Type) (N : Number F) (to_numeric_text : string -> F)
         (df_raw : list (list (cell F))) (df : DataFrame F) (st : Store F),
    load to_numeric_text df_raw = Ok df ->
    display df = Ok st ->
    map Customer_Name df =
      filter notna (map (fun r => applymap_strip (nth 1 r Blank)) (skipn 3 df_raw)) /\
    summary st =
      map (fun c =>
             {| Category := c;
                Importance := mean_over_present df (Importance_of c);
                Performance := mean_over_present df (Performance_of c);
                Gap := sub (mean_over_present df (Performance_of c))
                           (mean_over_present df (Importance_of c)) |})
          categories.
Proof.
  intros F N parse df_raw df st Hload Hd. split.
  - apply (load_names parse df_raw df Hload).
  - destruct (display_store df st Hd) as [Hs _].
    rewrite Hs. apply summarise_means.
Qed.

Lemma category_averages_skip_missing_values_witness :
  exists df st,
    load Inputs.no_text Inputs.small_sheet = Ok df /\
    display df = Ok st /\
    map Customer_Name df = [Text "Acme Ltd"; Text "Bolt"] /\
    map Importance (summary st) = [4.5; 2.5; 2.5; 2.5; 2.5; 1]%float.
Proof.
  destruct (load Inputs.no_text Inputs.small_sheet) as [df|e] eqn:Hload;
    [|exfalso; vm_compute in Hload; discriminate].
  destruct (display df) as [st|e] eqn:Hd.
  - destruct (category_averages_skip_missing_values float binary64
                Inputs.no_text Inputs.small_sheet df st Hload Hd) as [Hn Hs].
    exists df, st. split; [reflexivity|]. split; [assumption|]. split.
    + rewrite Hn. vm_compute. reflexivity.
    + rewrite Hs, map_map. simpl Importance.
      vm_compute in Hload. injection Hload as <-. vm_compute. reflexivity.
  - exfalso. vm_compute in Hload. injection Hload as <-.
    vm_compute in Hd. discriminate.
Defined.

(** The second customer of the small sheet left the importance of pricing
    blank: the customer counts in the five other importance averages and
    in all six performance averages, has no percentage, and so leaves the
    average customer satisfaction without a value. *)
Lemma small_sheet_figures :
  exists st,
    analyse Inputs.no_text Inputs.small_sheet = Ok st /\
    map Importance (summary st) = [4.5; 2.5; 2.5; 2.5; 2.5; 1]%float /\
    map Performance (summary st) = [2; 4; 4; 4; 4; 4]%float /\
    ratings st = [60; PrimFloat.nan]%float /\
    avg_customer_sat st = PrimFloat.nan.
Proof.
  eexists. split; [vm_compute; reflexivity|].
  repeat split; vm_compute; reflexivity.
Qed.

(** ** More on loading *)

(** X1: loading raises [ValueError] exactly for a sheet of fewer than
    fourteen columns, an empty sheet included; it raises nothing else,
    and otherwise returns at most one record per row below the three
    header rows. *)
Theorem load_raises_exactly_on_narrow_sheets :
  forall (F : Type) (N : Number F) (to_numeric_text : string -> F)
         (df_raw : list (list (cell F))),
    (load to_numeric_text df_raw = Raise ValueError <-> (width df_raw < 14)%nat) /\
    (forall e, load to_numeric_text df_raw = Raise e -> e = ValueError) /\
    (forall df, load to_numeric_text df_raw = Ok df ->
                (List.length df <= List.length df_raw - 3)%nat).
Proof.
  intros F N parse df_raw. unfold load.
  change (List.length columns) with 13%nat.
  pose proof (length_skipn 3 df_raw) as Hbody.
  revert Hbody. generalize (skipn 3 df_raw) as body. intros body Hbody.
  destruct (Nat.eqb (Nat.min 13 (width df_raw - 1)) 13) eqn:Hw.
  - apply Nat.eqb_eq in Hw. split; [|split].
    + split; [discriminate | lia].
    + discriminate.
    + intros df Hok. injection Hok as <-.
      eapply Nat.le_trans; [apply filter_length_le|].
      rewrite !length_map. lia.
  - apply Nat.eqb_neq in Hw. split; [|split].
    + split; [lia | reflexivity].
    + intros e He. injection He as <-. reflexivity.
    + discriminate.
Qed.

Section LoadedRows.

Context {F : Type} `{Number F}.

Variable to_numeric_text : string -> F.

Lemma clean_row_cells (w : nat) (r : list (cell F)) (i : nat) :
  (14 <= w)%nat -> (i < 6)%nat ->
  get (clean_row to_numeric_text (iloc_columns w r)) (Importance_of (category_at i)) =
    to_numeric to_numeric_text (applymap_strip (nth (2 + 2 * i) r Blank)) /\
  get (clean_row to_numeric_text (iloc_columns w r)) (Performance_of (category_at i)) =
    to_numeric to_numeric_text (applymap_strip (nth (3 + 2 * i) r Blank)).
Proof.
  intros Hw Hi. rewrite (iloc_columns_wide w r Hw).
  destruct i as [|[|[|[|[|[|i]]]]]]; try lia; split; reflexivity.
Qed.

Lemma load_rows (df_raw : list (list (cell F))) (df : DataFrame F) (row : Row F) :
  load to_numeric_text df_raw = Ok df ->
  In row df ->
  (14 <= width df_raw)%nat /\
  exists r, In r (skipn 3 df_raw) /\
            row = clean_row to_numeric_text (iloc_columns (width df_raw) r).
Proof.
  unfold load. change (List.length columns) with 13%nat.
  destruct (Nat.eqb (Nat.min 13 (width df_raw - 1)) 13) eqn:Hw; [|discriminate].
  apply Nat.eqb_eq in Hw.
  intros Hok Hin. injection Hok as <-.
  apply filter_In in Hin. destruct Hin as [Hin _].
  apply in_map_iff in Hin. destruct Hin as [cells [<- Hin]].
  apply in_map_iff in Hin. destruct Hin as [r [<- Hin]].
  split; [lia|]. exists r. split; [assumption | reflexivity].
Qed.

End LoadedRows.

(** X2: every record of the cleaned frame comes from one row of the sheet
    below the headers: its name is the second cell, and for the category
    at position [i] its importance is the numeric reading of cell
    [2 + 2i] and its performance that of cell [3 + 2i]. *)
Theorem loaded_record_reads_its_sheet_row :
  forall (F : Type) (N : Number F) (to_numeric_text : string -> F)
         (df_raw : list (list (cell F))) (df : DataFrame F),
    load to_numeric_text df_raw = Ok df ->
    Forall
      (fun row =>
         exists r,
           In r (skipn 3 df_raw) /\
           Customer_Name row = applymap_strip (nth 1 r Blank) /\
           forall i, (i < 6)%nat ->
             get row (Importance_of (category_at i)) =
               to_numeric to_numeric_text (applymap_strip (nth (2 + 2 * i) r Blank)) /\
             get row (Performance_of (category_at i)) =
               to_numeric to_numeric_text (applymap_strip (nth (3 + 2 * i) r Blank)))
      df.
Proof.
  intros F N parse df_raw df Hload. apply Forall_forall. intros row Hin.
  destruct (load_rows parse df_raw df row Hload Hin) as [Hw [r [Hr ->]]].
  exists r. split; [assumption|]. split.
  - apply clean_row_name. assumption.
  - intros i Hi. apply clean_row_cells; assumption.
Qed.

Lemma loaded_record_reads_its_sheet_row_witness :
  exists df,
    load Inputs.no_text Inputs.small_sheet = Ok df /\
    Forall
      (fun row =>
         exists r,
           In r (skipn 3 Inputs.small_sheet) /\
           Customer_Name row = applymap_strip (nth 1 r Blank) /\
           forall i, (i < 6)%nat ->
             get row (Importance_of (category_at i)) =
               to_numeric Inputs.no_text (applymap_strip (nth (2 + 2 * i) r Blank)) /\
             get row (Performance_of (category_at i)) =
               to_numeric Inputs.no_text (applymap_strip (nth (3 + 2 * i) r Blank)))
      df.
Proof.
  destruct (load Inputs.no_text Inputs.small_sheet) as [df|e] eqn:Hload.
  - exists df. split; [reflexivity|].
    exact (loaded_record_reads_its_sheet_row float binary64 Inputs.no_text
             Inputs.small_sheet df Hload).
  - exfalso. vm_compute in Hload. discriminate.
Defined.

(** ** Missing values in the customer loop *)

Section MissingValues.

Context {F : Type} `{Number F}.

Hypothesis add_nan_l : forall a b, is_nan a = true -> is_nan (add a b) = true.
Hypothesis add_nan_r : forall a b, is_nan b = true -> is_nan (add a b) = true.
Hypothesis mul_nan_l : forall a b, is_nan a = true -> is_nan (mul a b) = true.
Hypothesis mul_nan_r : forall a b, is_nan b = true -> is_nan (mul a b) = true.
Hypothesis div_nan_l : forall a b, is_nan a = true -> is_nan (div a b) = true.
Hypothesis div_nan_r : forall a b, is_nan b = true -> is_nan (div a b) = true.

Lemma fold_add_nan_acc (l : list F) (acc : F) :
  is_nan acc = true -> is_nan (fold_left add l acc) = true.
Proof.
  revert acc. induction l as [|x l IH]; intros acc Hacc; simpl; [assumption|].
  apply IH, add_nan_l. assumption.
Qed.

Lemma py_sum_nan (l : list F) :
  Exists (fun x => is_nan x = true) l -> is_nan (py_sum l) = true.
Proof.
  unfold py_sum. generalize (of_Z 0).
  induction l as [|x l IH]; intros acc Hex; simpl.
  - inversion Hex.
  - inversion Hex as [? ? Hx | ? ? Hl]; subst.
    + apply fold_add_nan_acc, add_nan_r. assumption.
    + apply IH. assumption.
Qed.

Lemma combine_nan_l (ps ws : list F) :
  List.length ps = List.length ws ->
  Exists (fun x => is_nan x = true) ps ->
  Exists (fun x => is_nan x = true)
         (map (fun pw => mul (fst pw) (snd pw)) (combine ps ws)).
Proof.
  revert ws. induction ps as [|p ps IH]; intros [|w ws] Hlen Hex; simpl in *;
    try discriminate; [inversion Hex|].
  inversion Hex as [? ? Hp | ? ? Hps]; subst.
  - left. apply mul_nan_l. assumption.
  - right. apply IH; [lia | assumption].
Qed.

Lemma combine_nan_r (ps ws : list F) :
  List.length ps = List.length ws ->
  Exists (fun x => is_nan x = true) ws ->
  Exists (fun x => is_nan x = true)
         (map (fun pw => mul (fst pw) (snd pw)) (combine ps ws)).
Proof.
  revert ws. induction ps as [|p ps IH]; intros [|w ws] Hlen Hex; simpl in *;
    try discriminate; [inversion Hex|].
  inversion Hex as [? ? Hw | ? ? Hws]; subst.
  - left. apply mul_nan_r. assumption.
  - right. apply IH; [lia | assumption].
Qed.

Lemma weights_nan (imps : list F) (t : F) :
  Exists (fun x => is_nan x = true) imps ->
  Exists (fun x => is_nan x = true) (map (fun imp => div imp t) imps).
Proof.
  induction 1 as [x l Hx | x l _ IH]; simpl.
  - left. apply div_nan_l. assumption.
  - right. assumption.
Qed.

Lemma in_categories_exists (f : string -> F) (c : string) :
  In c categories -> is_nan (f c) = true ->
  Exists (fun x => is_nan x = true) (map f categories).
Proof.
  intros Hin Hc. apply Exists_exists. exists (f c). split; [|assumption].
  apply in_map. assumption.
Qed.

(** A record with a missing importance or performance is scored, unless
    its total importance is zero, and its percentage is missing. *)
Lemma score_row_missing (row : Row F) (c : string) :
  In c categories ->
  is_nan (get row (Importance_of c)) = true \/
  is_nan (get row (Performance_of c)) = true ->
  is_zero (py_sum (importance_of row)) = false ->
  exists b, score_row row = Ok b /\ is_nan (b_satisfaction b) = true.
Proof.
  intros Hin Hmiss Hz. unfold score_row, score. cbn [divide].
  rewrite comprehension_truediv, Hz. cbn [bind].
  eexists. split; [reflexivity|]. cbn [b_satisfaction].
  apply mul_nan_l, div_nan_l, py_sum_nan.
  destruct Hmiss as [Hi | Hp].
  - apply combine_nan_r; [unfold performance_of, importance_of; rewrite !length_map; reflexivity|].
    apply weights_nan.
    apply (in_categories_exists (fun c => get row (Importance_of c)) c Hin Hi).
  - apply combine_nan_l; [unfold performance_of, importance_of; rewrite !length_map; reflexivity|].
    apply (in_categories_exists (fun c => get row (Performance_of c)) c Hin Hp).
Qed.

Lemma display_missing (df : DataFrame F) (st : Store F) (row : Row F) (c : string) :
  display df = Ok st ->
  In row df ->
  In c categories ->
  is_nan (get row (Importance_of c)) = true \/
  is_nan (get row (Performance_of c)) = true ->
  (exists b, score_row row = Ok b /\ is_nan (b_satisfaction b) = true) /\
  is_nan (avg_customer_sat st) = true.
Proof.
  intros Hd Hrow Hin Hmiss.
  assert (Hz : is_zero (py_sum (importance_of row)) = false).
  { unfold display, sections in Hd.
    destruct (iterrows object df [] []) as [out|e] eqn:Hloop; simpl in Hd; [|discriminate].
    destruct (iterrows_ok object df [] [] out Hloop) as [_ Hall].
    rewrite Forall_forall in Hall. apply Hall. assumption. }
  destruct (score_row_missing row c Hin Hmiss Hz) as [b [Hb Hnan]].
  split; [exists b; split; assumption|].
  destruct (display_store df st Hd) as [_ [_ [_ [_ [Ha _]]]]].
  rewrite Ha, (display_ratings df st Hd). unfold np_mean.
  apply div_nan_l, py_sum_nan, Exists_exists.
  exists (pct row). split; [apply in_map; assumption|].
  destruct (score_row_nonzero row Hz) as [b' [Hb' [_ [_ [_ [_ [_ Hs]]]]]]].
  rewrite Hb in Hb'. injection Hb' as <-. rewrite <- Hs. assumption.
Qed.

End MissingValues.

(** *** The missing value in double precision *)

Lemma SFcompare_refl (s : SpecFloat.spec_float) :
  s <> SpecFloat.S754_nan -> SpecFloat.SFcompare s s = Some Eq.
Proof.
  destruct s as [sg|sg| |sg m e]; intros Hs; simpl.
  - reflexivity.
  - destruct sg; reflexivity.
  - contradiction Hs; reflexivity.
  - destruct sg; rewrite Z.compare_refl, Pos.compare_cont_refl; reflexivity.
Qed.

Lemma is_nan_SF (x : float) :
  PrimFloat.is_nan x = true <-> Prim2SF x = SpecFloat.S754_nan.
Proof.
  unfold PrimFloat.is_nan. rewrite FloatAxioms.eqb_spec. unfold SpecFloat.SFeqb.
  split.
  - intros Hx. destruct (Prim2SF x) as [sg|sg| |sg m e] eqn:Hs; try reflexivity;
      rewrite SFcompare_refl in Hx by discriminate; discriminate.
  - intros ->. reflexivity.
Qed.

Lemma float_nan_laws :
  (forall a b, PrimFloat.is_nan a = true -> PrimFloat.is_nan (a + b) = true) /\
  (forall a b, PrimFloat.is_nan b = true -> PrimFloat.is_nan (a + b) = true) /\
  (forall a b, PrimFloat.is_nan a = true -> PrimFloat.is_nan (a * b) = true) /\
  (forall a b, PrimFloat.is_nan b = true -> PrimFloat.is_nan (a * b) = true) /\
  (forall a b, PrimFloat.is_nan a = true -> PrimFloat.is_nan (a / b) = true) /\
  (forall a b, PrimFloat.is_nan b = true -> PrimFloat.is_nan (a / b) = true).
Proof.
  repeat split; intros a b Hn; apply is_nan_SF in Hn; apply is_nan_SF;
    rewrite ?add_spec, ?mul_spec, ?div_spec, Hn;
    try reflexivity; destruct (Prim2SF a); reflexivity.
Qed.

(** X5: in double precision a record with a missing importance or
    performance in some category, in a dataset the customer loop gets
    through, is scored with a missing percentage, and the average
    customer satisfaction of the whole dataset is then missing too. *)
Theorem missing_cell_blanks_the_average :
  forall (df : DataFrame float) (st : Store float) (row : Row float) (c : string),
    display df = Ok st ->
    In row df ->
    In c categories ->
    is_nan (get row (Importance_of c)) = true \/
    is_nan (get row (Performance_of c)) = true ->
    (exists b, score_row row = Ok b /\ is_nan (b_satisfaction b) = true) /\
    is_nan (avg_customer_sat st) = true.
Proof.
  destruct float_nan_laws as [L1 [L2 [L3 [L4 [L5 L6]]]]].
  intros df st row c. apply display_missing; assumption.
Qed.

Lemma missing_cell_blanks_the_average_witness :
  exists st,
    display [Inputs.scenario;
             row_of (Text "Bolt") [4; 4; 4; 4; 4; PrimFloat.nan]%float
                                  [3; 3; 3; 3; 3; 3]%float] = Ok st /\
    is_nan (avg_customer_sat st) = true.
Proof.
  set (bolt := row_of (Text "Bolt") [4; 4; 4; 4; 4; PrimFloat.nan]%float
                                    [3; 3; 3; 3; 3; 3]%float).
  destruct (display [Inputs.scenario; bolt]) as [st|e] eqn:Hd.
  - exists st. split; [reflexivity|].
    exact (proj2 (missing_cell_blanks_the_average [Inputs.scenario; bolt] st bolt
                    "Pricing"%string Hd
                    (or_intror (or_introl eq_refl))
                    (or_intror (or_intror (or_intror (or_intror (or_intror
                       (or_introl eq_refl))))))
                    (or_introl eq_refl))).
  - exfalso. vm_compute in Hd. discriminate.
Defined.

(** ** The score as a weighted mean *)

Section WeightedMean.

Local Open Scope R_scope.

(** The sum of the products of two lists, place by place. *)
Lemma sumR_combine_div (t : R) (ps xs : list R) :
  sumR (map (fun pw => fst pw * snd pw) (combine ps (map (fun x => x / t) xs))) =
  sumR (map (fun pw => fst pw * snd pw) (combine ps xs)) / t.
Proof.
  revert xs. induction ps as [|p ps IH]; intros xs; simpl; [unfold Rdiv; ring|].
  destruct xs as [|x xs]; simpl; [unfold Rdiv; ring|].
  rewrite IH. unfold Rdiv. ring.
Qed.

Lemma sumR_combine_scale (k : R) (ps xs : list R) :
  sumR (map (fun pw => fst pw * snd pw) (combine ps (map (fun x => k * x) xs))) =
  k * sumR (map (fun pw => fst pw * snd pw) (combine ps xs)).
Proof.
  revert xs. induction ps as [|p ps IH]; intros xs; simpl; [ring|].
  destruct xs as [|x xs]; simpl; [ring|].
  rewrite IH. ring.
Qed.

Lemma sumR_scale (k : R) (xs : list R) :
  sumR (map (fun x => k * x) xs) = k * sumR xs.
Proof.
  induction xs as [|x xs IH]; simpl; [ring|]. rewrite IH. ring.
Qed.

Lemma sumR_combine_le (ps qs xs : list R) :
  Forall2 Rle ps qs ->
  Forall (fun x => 0 <= x) xs ->
  sumR (map (fun pw => fst pw * snd pw) (combine ps xs)) <=
  sumR (map (fun pw => fst pw * snd pw) (combine qs xs)).
Proof.
  intros Hpq. revert xs.
  induction Hpq as [|p q ps qs Hle _ IH]; intros xs Hxs; simpl; [lra|].
  destruct Hxs as [|x xs Hx Hxs]; simpl; [lra|].
  specialize (IH xs Hxs). nra.
Qed.

Lemma exact_satisfaction_value (row : Row xreal) (imps perfs : list R) :
  importance_of row = map Real imps ->
  performance_of row = map Real perfs ->
  sumR imps <> 0 ->
  exists b,
    score_row row = Ok b /\
    b_satisfaction b =
      Real (sumR (map (fun pw => fst pw * snd pw) (combine perfs imps))
            / sumR imps / 5 * 100).
Proof.
  intros Himp Hperf Ht.
  set (t := sumR imps) in *.
  assert (Hsum : py_sum (importance_of row) = Real t).
  { rewrite Himp. unfold py_sum. simpl of_Z. rewrite fold_add_map_real.
    rewrite fold_plus_sumR. f_equal. unfold t. ring. }
  unfold score_row, score. cbn [divide].
  rewrite comprehension_truediv, Hsum, (is_zero_real t Ht), Himp, Hperf.
  rewrite (map_div_real t imps Ht). simpl bind.
  eexists. split; [reflexivity|]. simpl b_satisfaction.
  rewrite map_mul_real. unfold py_sum. simpl of_Z.
  rewrite fold_add_map_real, fold_plus_sumR, sumR_combine_div.
  simpl. destruct (Req_dec_T 5 0) as [E|_]; [lra|].
  simpl. apply f_equal. unfold Rdiv. ring.
Qed.

End WeightedMean.

(** X6: in exact arithmetic the percentage of a record whose importances
    are numbers with a non-zero total is twenty times the mean of its
    performances weighted by its importances: the sum of the products
    performance times importance, over the sum of the importances, over
    5, times 100. *)
Theorem satisfaction_is_twenty_times_weighted_mean :
  forall (row : Row xreal) (imps perfs : list R),
    importance_of row = map Real imps ->
    performance_of row = map Real perfs ->
    sumR imps <> 0%R ->
    exists b,
      score_row row = Ok b /\
      b_satisfaction b =
        Real (sumR (map (fun pw => fst pw * snd pw) (combine perfs imps))
              / sumR imps / 5 * 100)%R.
Proof. exact exact_satisfaction_value. Qed.

Lemma satisfaction_is_twenty_times_weighted_mean_witness :
  exists b,
    score_row Inputs.exact_scenario = Ok b /\
    b_satisfaction b =
      Real (sumR (map (fun pw => fst pw * snd pw)
                      (combine [1; 5; 5; 5; 5; 5] [5; 1; 1; 1; 1; 1]))
            / sumR [5; 1; 1; 1; 1; 1] / 5 * 100)%R.
Proof.
  apply (satisfaction_is_twenty_times_weighted_mean Inputs.exact_scenario
           [5; 1; 1; 1; 1; 1]%R [1; 5; 5; 5; 5; 5]%R).
  - reflexivity.
  - reflexivity.
  - simpl. lra.
Defined.

(** X7: in exact arithmetic a customer who gives every category the same
    mark [p] scores [20 * p] percent whatever the importances, as long
    as their total is not zero: 100 percent for a row of fives. *)
Theorem uniform_performance_scores_twenty_times_the_mark :
  forall (row : Row xreal) (imps : list R) (p : R),
    importance_of row = map Real imps ->
    performance_of row = map (fun _ => Real p) categories ->
    sumR imps <> 0%R ->
    exists b, score_row row = Ok b /\ b_satisfaction b = Real (20 * p)%R.
Proof.
  intros row imps p Himp Hperf Ht.
  destruct (exact_satisfaction_value row imps [p; p; p; p; p; p] Himp Hperf Ht)
    as [b [Hb Hs]].
  exists b. split; [assumption|]. rewrite Hs. f_equal.
  assert (Hlen : List.length imps = 6%nat).
  { apply (f_equal (@List.length xreal)) in Himp.
    rewrite length_map in Himp. symmetry. exact Himp. }
  destruct imps as [|x1 [|x2 [|x3 [|x4 [|x5 [|x6 [|x7 imps]]]]]]]; try discriminate.
  simpl in *. field. lra.
Qed.

Lemma uniform_performance_scores_twenty_times_the_mark_witness :
  exists b,
    score_row (row_of (Text "Even") [Real 5; Real 1; Real 1; Real 1; Real 1; Real 1]
                      [Real 5; Real 5; Real 5; Real 5; Real 5; Real 5]) = Ok b /\
    b_satisfaction b = Real (20 * 5)%R.
Proof.
  apply (uniform_performance_scores_twenty_times_the_mark _ [5; 1; 1; 1; 1; 1]%R 5%R).
  - reflexivity.
  - reflexivity.
  - simpl. lra.
Defined.

(** X8: in exact arithmetic only the proportions of the importances
    count: multiplying every importance of a record by the same non-zero
    factor leaves its percentage as it was. *)
Theorem satisfaction_ignores_the_scale_of_importance :
  forall (row row' : Row xreal) (imps perfs : list R) (k : R),
    importance_of row = map Real imps ->
    importance_of row' = map Real (map (fun x => k * x)%R imps) ->
    performance_of row = map Real perfs ->
    performance_of row' = map Real perfs ->
    sumR imps <> 0%R ->
    k <> 0%R ->
    exists b b',
      score_row row = Ok b /\ score_row row' = Ok b' /\
      b_satisfaction b' = b_satisfaction b.
Proof.
  intros row row' imps perfs k Himp Himp' Hperf Hperf' Ht Hk.
  destruct (exact_satisfaction_value row imps perfs Himp Hperf Ht) as [b [Hb Hs]].
  assert (Ht' : sumR (map (fun x => (k * x)%R) imps) <> 0%R).
  { rewrite sumR_scale. apply Rmult_integral_contrapositive. split; assumption. }
  destruct (exact_satisfaction_value row' _ perfs Himp' Hperf' Ht') as [b' [Hb' Hs']].
  exists b, b'. split; [assumption|]. split; [assumption|].
  rewrite Hs, Hs', sumR_combine_scale, sumR_scale. f_equal. field.
  split; assumption.
Qed.

Lemma satisfaction_ignores_the_scale_of_importance_witness :
  exists b b',
    score_row Inputs.exact_scenario = Ok b /\
    score_row (row_of (Text "Acme")
                 [Real (2 * 5); Real (2 * 1); Real (2 * 1);
                  Real (2 * 1); Real (2 * 1); Real (2 * 1)]
                 [Real 1; Real 5; Real 5; Real 5; Real 5; Real 5]) = Ok b' /\
    b_satisfaction b' = b_satisfaction b.
Proof.
  apply (satisfaction_ignores_the_scale_of_importance
           Inputs.exact_scenario _ [5; 1; 1; 1; 1; 1]%R [1; 5; 5; 5; 5; 5]%R 2%R).
  - reflexivity.
  - reflexivity.
  - reflexivity.
  - reflexivity.
  - simpl. lra.
  - lra.
Defined.

(** X9: in exact arithmetic, with importances that are non-negative
    numbers of a positive total, a record whose performances are, place
    by place, at least those of another record with the same importances
    scores at least as much. *)
Theorem satisfaction_grows_with_performance :
  forall (row row' : Row xreal) (imps perfs perfs' : list R),
    importance_of row = map Real imps ->
    importance_of row' = map Real imps ->
    performance_of row = map Real perfs ->
    performance_of row' = map Real perfs' ->
    Forall (fun x => (0 <= x)%R) imps ->
    (0 < sumR imps)%R ->
    Forall2 Rle perfs perfs' ->
    exists b b' s s',
      score_row row = Ok b /\ score_row row' = Ok b' /\
      b_satisfaction b = Real s /\ b_satisfaction b' = Real s' /\ (s <= s')%R.
Proof.
  intros row row' imps perfs perfs' Himp Himp' Hperf Hperf' Hnn Hpos Hle.
  assert (Ht : sumR imps <> 0%R) by lra.
  destruct (exact_satisfaction_value row imps perfs Himp Hperf Ht) as [b [Hb Hs]].
  destruct (exact_satisfaction_value row' imps perfs' Himp' Hperf' Ht) as [b' [Hb' Hs']].
  exists b, b'. eexists. eexists.
  split; [exact Hb|]. split; [exact Hb'|]. split; [exact Hs|]. split; [exact Hs'|].
  pose proof (sumR_combine_le perfs perfs' imps Hle Hnn) as Hsum.
  assert (Hinv : (0 < / sumR imps)%R) by (apply Rinv_0_lt_compat; assumption).
  unfold Rdiv.
  apply Rmult_le_compat_r; [lra|].
  apply Rmult_le_compat_r; [lra|].
  apply Rmult_le_compat_r; [lra | exact Hsum].
Qed.

Lemma satisfaction_grows_with_performance_witness :
  exists b b' s s',
    score_row Inputs.exact_scenario = Ok b /\
    score_row (row_of (Text "Acme")
                 [Real 5; Real 1; Real 1; Real 1; Real 1; Real 1]
                 [Real 2; Real 5; Real 5; Real 5; Real 5; Real 5]) = Ok b' /\
    b_satisfaction b = Real s /\ b_satisfaction b' = Real s' /\ (s <= s')%R.
Proof.
  apply (satisfaction_grows_with_performance Inputs.exact_scenario _
           [5; 1; 1; 1; 1; 1]%R [1; 5; 5; 5; 5; 5]%R [2; 5; 5; 5; 5; 5]%R).
  - reflexivity.
  - reflexivity.
  - reflexivity.
  - reflexivity.
  - repeat constructor; lra.
  - simpl. lra.
  - repeat constructor; lra.
Defined.

(** ** The order of the rows *)

Section RowOrder.

Lemma xadd_swap (a x y : xreal) : add (add a x) y = add (add a y) x.
Proof.
  destruct a as [a|], x as [x|], y as [y|]; simpl; try reflexivity.
  f_equal. ring.
Qed.

Lemma fold_add_permutation (l l' : list xreal) :
  Permutation l l' -> forall a, fold_left add l a = fold_left add l' a.
Proof.
  induction 1 as [|x l l' _ IH|x y l|l l' l'' _ IH1 _ IH2]; intros a; cbn [fold_left].
  - reflexivity.
  - apply IH.
  - rewrite xadd_swap. reflexivity.
  - rewrite IH1. apply IH2.
Qed.

Lemma py_sum_permutation (l l' : list xreal) :
  Permutation l l' -> py_sum l = py_sum l'.
Proof. intros Hp. apply fold_add_permutation. assumption. Qed.

Lemma filter_permutation {A} (f : A -> bool) (l l' : list A) :
  Permutation l l' -> Permutation (filter f l) (filter f l').
Proof.
  induction 1 as [|x l l' _ IH|x y l|l l' l'' _ IH1 _ IH2]; simpl.
  - constructor.
  - destruct (f x); [constructor|]; assumption.
  - destruct (f x), (f y); try reflexivity. constructor.
  - etransitivity; eassumption.
Qed.

Lemma Series_mean_permutation (s s' : list xreal) :
  Permutation s s' -> Series_mean s = Series_mean s'.
Proof.
  intros Hp. unfold Series_mean.
  pose proof (filter_permutation (fun x => negb (is_nan x)) s s' Hp) as Hd.
  fold (dropna s) in Hd. fold (dropna s') in Hd.
  rewrite (py_sum_permutation _ _ Hd), (Permutation_length Hd). reflexivity.
Qed.

Lemma np_std_permutation (s s' : list xreal) :
  Permutation s s' -> np_std s = np_std s'.
Proof.
  intros Hp. unfold np_std, Series_std.
  pose proof (filter_permutation (fun x => negb (is_nan x)) s s' Hp) as Hd.
  fold (dropna s) in Hd. fold (dropna s') in Hd.
  rewrite (py_sum_permutation _ _ Hd), (Permutation_length Hd).
  f_equal. f_equal.
  apply py_sum_permutation, Permutation_map. assumption.
Qed.

Lemma display_permutation (df df' : DataFrame xreal) (st : Store xreal) :
  Permutation df df' ->
  display df = Ok st ->
  exists st',
    display df' = Ok st' /\
    Permutation (ratings st) (ratings st') /\
    summary st' = summary st /\
    CSI st' = CSI st /\
    avg_customer_sat st' = avg_customer_sat st /\
    variation st' = variation st.
Proof.
  intros Hp Hd.
  assert (Hall : Forall (fun row => is_zero (py_sum (importance_of row)) = false) df).
  { unfold display, sections in Hd.
    destruct (iterrows object df [] []) as [out|e] eqn:Hloop; simpl in Hd; [|discriminate].
    apply (iterrows_ok object df [] [] out Hloop). }
  assert (Hall' : Forall (fun row => is_zero (py_sum (importance_of row)) = false) df').
  { apply (Permutation_Forall Hp). assumption. }
  destruct (iterrows_total object df' Hall' [] []) as [out' Hloop'].
  assert (Hd' : exists st', display df' = Ok st').
  { unfold display, sections. rewrite Hloop'. cbn [bind]. eexists. reflexivity. }
  destruct Hd' as [st' Hd']. exists st'. split; [assumption|].
  destruct (display_store df st Hd) as [Hs [Hi [Hpf [Hc [Ha Hv]]]]].
  destruct (display_store df' st' Hd') as [Hs' [Hi' [Hpf' [Hc' [Ha' Hv']]]]].
  assert (Hsum : summarise df' = summarise df).
  { unfold summarise. apply map_ext. intros c.
    rewrite (Series_mean_permutation (column df (Importance_of c))
                                     (column df' (Importance_of c)))
      by (apply Permutation_map; assumption).
    rewrite (Series_mean_permutation (column df (Performance_of c))
                                     (column df' (Performance_of c)))
      by (apply Permutation_map; assumption).
    reflexivity. }
  assert (Hr : Permutation (ratings st) (ratings st')).
  { rewrite (display_ratings df st Hd), (display_ratings df' st' Hd').
    apply Permutation_map. assumption. }
  split; [assumption|].
  split; [rewrite Hs, Hs'; assumption|].
  split; [rewrite Hc, Hc', Hi, Hi', Hpf, Hpf', Hsum; reflexivity|].
  split.
  - rewrite Ha, Ha'. unfold np_mean.
    rewrite (py_sum_permutation _ _ Hr), (Permutation_length Hr). reflexivity.
  - rewrite Hv, Hv'. apply map_ext. intros c. f_equal. symmetry.
    apply np_std_permutation, Permutation_map. assumption.
Qed.

End RowOrder.

(** X10: in exact arithmetic the order of the rows does not matter: a
    dataset with the same records in another order gets through the
    customer loop as well, every customer keeps the same percentage,
    and the summary, the index, the average customer satisfaction and
    the consistency table are the same. *)
Theorem figures_do_not_depend_on_row_order :
  forall (df df' : DataFrame xreal) (st : Store xreal),
    Permutation df df' ->
    display df = Ok st ->
    exists st',
      display df' = Ok st' /\
      ratings st = map pct df /\
      ratings st' = map pct df' /\
      Permutation (ratings st) (ratings st') /\
      summary st' = summary st /\
      CSI st' = CSI st /\
      avg_customer_sat st' = avg_customer_sat st /\
      variation st' = variation st.
Proof.
  intros df df' st Hp Hd.
  destruct (display_permutation df df' st Hp Hd) as [st' [Hd' [Hr [Hs [Hc [Ha Hv]]]]]].
  exists st'. split; [assumption|].
  split; [apply display_ratings; assumption|].
  split; [apply display_ratings; assumption|].
  repeat split; assumption.
Qed.

Lemma figures_do_not_depend_on_row_order_witness :
  exists st st',
    display [Inputs.exact_scenario;
             row_of (Text "Even") [Real 1; Real 1; Real 1; Real 1; Real 1; Real 1]
                    [Real 4; Real 4; Real 4; Real 4; Real 4; Real 4]] = Ok st /\
    display [row_of (Text "Even") [Real 1; Real 1; Real 1; Real 1; Real 1; Real 1]
                    [Real 4; Real 4; Real 4; Real 4; Real 4; Real 4];
             Inputs.exact_scenario] = Ok st' /\
    CSI st' = CSI st /\
    avg_customer_sat st' = avg_customer_sat st.
Proof.
  set (even := row_of (Text "Even") [Real 1; Real 1; Real 1; Real 1; Real 1; Real 1]
                      [Real 4; Real 4; Real 4; Real 4; Real 4; Real 4]).
  assert (Hz : Forall (fun row : Row xreal => is_zero (py_sum (importance_of row)) = false)
                 [Inputs.exact_scenario; even]).
  { assert (H1 : py_sum (importance_of Inputs.exact_scenario)
                 = Real (0 + 5 + 1 + 1 + 1 + 1 + 1)%R) by reflexivity.
    assert (H2 : py_sum (importance_of even)
                 = Real (0 + 1 + 1 + 1 + 1 + 1 + 1)%R) by reflexivity.
    apply Forall_cons; [rewrite H1; apply is_zero_real; lra|].
    apply Forall_cons; [rewrite H2; apply is_zero_real; lra|].
    apply Forall_nil. }
  destruct (iterrows_total object _ Hz [] []) as [out Hloop].
  assert (Hd : exists st, display [Inputs.exact_scenario; even] = Ok st).
  { unfold display, sections. rewrite Hloop. cbn [bind]. eexists. reflexivity. }
  destruct Hd as [st Hd].
  destruct (figures_do_not_depend_on_row_order
              [Inputs.exact_scenario; even] [even; Inputs.exact_scenario] st
              (perm_swap _ _ _) Hd)
    as [st' [Hd' [_ [_ [_ [_ [Hc [Ha _]]]]]]]].
  exists st, st'. repeat split; assumption.
Defined.

(** ** The priorities chart *)

Lemma dropna_map_real (xs : list R) : dropna (map Real xs) = map Real xs.
Proof.
  unfold dropna. induction xs as [|x xs IH]; simpl; [reflexivity|].
  f_equal. exact IH.
Qed.

(** X11: in exact arithmetic, when every category has an average
    importance and these averages do not add up to zero, the slices of
    the priorities chart are the averages over their sum and add up to
    one; they are non-negative when the averages are. *)
Theorem priority_shares_sum_to_one :
  forall (summary : list (SummaryRow xreal)) (xs : list R),
    map Importance summary = map Real xs ->
    sumR xs <> 0%R ->
    exists ws,
      weights_total summary = map Real ws /\
      ws = map (fun x => x / sumR xs)%R xs /\
      sumR ws = 1%R /\
      ((0 < sumR xs)%R -> Forall (fun x => (0 <= x)%R) xs ->
       Forall (fun w => (0 <= w)%R) ws).
Proof.
  intros summary xs Hx Ht.
  exists (map (fun x => x / sumR xs)%R xs).
  unfold weights_total. rewrite Hx, dropna_map_real.
  assert (Hsum : py_sum (map Real xs) = Real (sumR xs)).
  { unfold py_sum. simpl of_Z. rewrite fold_add_map_real, fold_plus_sumR.
    f_equal. ring. }
  rewrite Hsum, (map_div_real (sumR xs) xs Ht).
  split; [reflexivity|]. split; [reflexivity|]. split.
  - rewrite sumR_div. field. exact Ht.
  - intros Hpos Hnn. apply weights_nonneg; assumption.
Qed.

Lemma priority_shares_sum_to_one_witness :
  exists ws,
    weights_total
      [ {| Category := "Timeliness"; Importance := Real 4;
           Performance := Real 3; Gap := Real (-1) |};
        {| Category := "Pricing"; Importance := Real 1;
           Performance := Real 5; Gap := Real 4 |} ] = map Real ws /\
    sumR ws = 1%R.
Proof.
  destruct (priority_shares_sum_to_one
              [ {| Category := "Timeliness"; Importance := Real 4;
                   Performance := Real 3; Gap := Real (-1) |};
                {| Category := "Pricing"; Importance := Real 1;
                   Performance := Real 5; Gap := Real 4 |} ]
              [4; 1]%R eq_refl) as [ws [Hw [_ [Hs _]]]].
  - simpl. lra.
  - exists ws. split; assumption.
Defined.

(** ** The page breaks of the report *)

Lemma page_break_after_nat (idx n : nat) :
  page_break_after (Z.of_nat idx) (Z.of_nat n) =
  (Nat.odd idx && (idx + 1 <? n))%nat.
Proof.
  unfold page_break_after.
  assert (Hodd : ((Z.of_nat idx + 1) mod 2 =? 0)%Z = Nat.odd idx).
  { destruct (Nat.odd idx) eqn:Ho.
    - apply Nat.odd_spec in Ho. destruct Ho as [k Hk]. apply Z.eqb_eq.
      replace (Z.of_nat idx + 1)%Z with (Z.of_nat (k + 1) * 2)%Z by lia.
      apply Z.mod_mul. lia.
    - apply Z.eqb_neq. intros Hm.
      assert (He : Nat.even idx = true)
        by (rewrite <- Nat.negb_odd, Ho; reflexivity).
      apply Nat.even_spec in He. destruct He as [k Hk].
      replace (Z.of_nat idx + 1)%Z with (1 + Z.of_nat k * 2)%Z in Hm by lia.
      rewrite Z.mod_add in Hm by lia. discriminate. }
  rewrite Hodd, andb_comm. f_equal.
  destruct (idx + 1 <? n)%nat eqn:Hlt.
  - apply Nat.ltb_lt in Hlt. apply Z.ltb_lt. lia.
  - apply Nat.ltb_ge in Hlt. apply Z.ltb_ge. lia.
Qed.

Lemma count_odd (m : nat) :
  List.length (filter Nat.odd (seq 0 m)) = (m / 2)%nat.
Proof.
  induction m as [|m IH]; [reflexivity|].
  rewrite seq_S, filter_app, length_app, IH.
  change (0 + m)%nat with m. cbn [filter].
  destruct (Nat.odd m) eqn:Ho; cbn [List.length].
  - apply Nat.odd_spec in Ho. destruct Ho as [k Hk].
    rewrite <- (Nat.div_unique m 2 k 1) by lia.
    rewrite <- (Nat.div_unique (S m) 2 (k + 1) 0) by lia.
    reflexivity.
  - assert (He : Nat.even m = true) by (rewrite <- Nat.negb_odd, Ho; reflexivity).
    apply Nat.even_spec in He. destruct He as [k Hk].
    rewrite <- (Nat.div_unique m 2 k 0) by lia.
    rewrite <- (Nat.div_unique (S m) 2 k 1) by lia.
    lia.
Qed.

Lemma length_filter_map {A} (g : A -> bool) (l : list A) :
  List.length (filter (fun b : bool => b) (map g l)) = List.length (filter g l).
Proof.
  induction l as [|x l IH]; simpl; [reflexivity|].
  destruct (g x); simpl; rewrite IH; reflexivity.
Qed.

(** X12: in the report a page break follows the customer at position
    [idx], counted from 0, exactly when [idx] is odd and the customer is
    not the last one; so a dataset of [n] customers gets [(n - 1) / 2]
    page breaks and none after its last customer. *)
Theorem page_breaks_follow_every_second_customer :
  forall (F : Type) (df : DataFrame F),
    List.length (page_breaks df) = List.length df /\
    (forall idx, (idx < List.length df)%nat ->
       nth idx (page_breaks df) false =
       (Nat.odd idx && (idx + 1 <? List.length df))%nat) /\
    nth (List.length df - 1) (page_breaks df) false = false /\
    List.length (filter (fun b : bool => b) (page_breaks df)) =
      ((List.length df - 1) / 2)%nat.
Proof.
  intros F df. unfold page_breaks. set (n := List.length df).
  assert (Hnth : forall idx, (idx < n)%nat ->
            nth idx (map (fun idx => page_break_after (Z.of_nat idx) (Z.of_nat n))
                         (seq 0 n)) false =
            (Nat.odd idx && (idx + 1 <? n))%nat).
  { intros idx Hidx.
    rewrite (nth_indep _ false (page_break_after (Z.of_nat 0) (Z.of_nat n)))
      by (rewrite length_map, length_seq; exact Hidx).
    rewrite (map_nth (fun idx => page_break_after (Z.of_nat idx) (Z.of_nat n))).
    rewrite seq_nth by exact Hidx. simpl. apply page_break_after_nat. }
  split; [rewrite length_map, length_seq; reflexivity|].
  split; [exact Hnth|]. split.
  - destruct n as [|m]; [reflexivity|].
    rewrite Hnth by lia.
    replace (S m - 1 + 1 <? S m)%nat with false; [apply andb_false_r|].
    symmetry. apply Nat.ltb_ge. lia.
  - rewrite length_filter_map.
    destruct n as [|m]; [reflexivity|].
    rewrite seq_S, filter_app, length_app.
    change (0 + m)%nat with m. cbn [filter].
    rewrite page_break_after_nat.
    replace (m + 1 <? S m)%nat with false by (symmetry; apply Nat.ltb_ge; lia).
    rewrite andb_false_r. cbn [List.length].
    rewrite (filter_ext_in _ Nat.odd).
    + rewrite count_odd. replace (S m - 1)%nat with m by lia. lia.
    + intros idx Hin. apply in_seq in Hin. rewrite page_break_after_nat.
      replace (idx + 1 <? S m)%nat with true; [apply andb_true_r|].
      symmetry. apply Nat.ltb_lt. lia.
Qed.

(** ** The figures of the report *)

Section DashboardFacts.

Context {F : Type} `{Number F} `{Ordered F}.

Lemma loc_Category_ok (area : option string) (c : string) :
  loc_Category area = Ok c -> area = Some c.
Proof. destruct area; simpl; intros E; inversion E; reflexivity. Qed.

Lemma loc_Category_raises (area : option string) (e : exn) :
  loc_Category area = Raise e -> e = KeyError /\ area = None.
Proof. destruct area; simpl; intros E; inversion E; split; reflexivity. Qed.

Lemma key_takeaways_raises (st : Store F) (e : exn) :
  key_takeaways st = Raise e -> e = KeyError.
Proof.
  unfold key_takeaways. intros E.
  destruct (loc_Category (highest_rated_area st)) eqn:E1; cbn [bind] in E;
    [|inversion E; subst; apply (loc_Category_raises _ _ E1)].
  destruct (loc_Category (lowest_rated_area st)) eqn:E2; cbn [bind] in E;
    [|inversion E; subst; apply (loc_Category_raises _ _ E2)].
  destruct (loc_Category (most_consistent_area st)) eqn:E3; cbn [bind] in E;
    [discriminate|inversion E; subst; apply (loc_Category_raises _ _ E3)].
Qed.

Lemma ax_pie_raises (x : list F) (e : exn) :
  ax_pie x = Raise e -> e = ValueError.
Proof.
  unfold ax_pie. intros E.
  destruct (existsb _ x); [inversion E; reflexivity|].
  destruct (existsb is_nan _); [inversion E; reflexivity | discriminate].
Qed.

(** A run that comes to its end has gone through the three steps. *)
Lemma dashboard_ok (df : DataFrame F) (st : Store F) (t : Takeaways) :
  dashboard df = Ok (st, t) ->
  sections (row_dtype df) df = Ok st /\
  ax_pie (weights_total (summary st)) = Ok tt /\
  key_takeaways st = Ok t.
Proof.
  unfold dashboard. intros E.
  destruct (sections (row_dtype df) df) as [st0|e]; cbn [bind] in E; [|discriminate].
  destruct (ax_pie (weights_total (summary st0))) as [[]|e] eqn:Hpie;
    cbn [bind] in E; [|discriminate].
  destruct (key_takeaways st0) as [t0|e] eqn:Hkey; cbn [bind] in E; [|discriminate].
  inversion E. subst. repeat split; assumption.
Qed.

(** A run that stops has stopped in one of them. *)
Lemma dashboard_raises (df : DataFrame F) (e : exn) :
  dashboard df = Raise e ->
  sections (row_dtype df) df = Raise e \/
  (exists st, sections (row_dtype df) df = Ok st /\
              ax_pie (weights_total (summary st)) = Raise e) \/
  (exists st, sections (row_dtype df) df = Ok st /\
              ax_pie (weights_total (summary st)) = Ok tt /\
              key_takeaways st = Raise e).
Proof.
  unfold dashboard. intros E.
  destruct (sections (row_dtype df) df) as [st0|e0]; cbn [bind] in E;
    [|left; inversion E; reflexivity].
  destruct (ax_pie (weights_total (summary st0))) as [[]|e0] eqn:Hpie;
    cbn [bind] in E;
    [|right; left; exists st0; split; [reflexivity | inversion E; subst; exact Hpie]].
  destruct (key_takeaways st0) as [t0|e0] eqn:Hkey; cbn [bind] in E; [discriminate|].
  right; right. exists st0. split; [reflexivity|]. split; [exact Hpie|].
  inversion E. subst. exact Hkey.
Qed.

End DashboardFacts.

(** ** When the run stops in the customer loop *)

Lemma row_dtype_written {F : Type} `{Number F} (df : DataFrame F) :
  row_dtype df = object ->
  exists named s, In named df /\ Customer_Name named = Text s.
Proof.
  unfold row_dtype. intros Hd.
  destruct (existsb (fun row => is_text (Customer_Name row)) df) eqn:Hex;
    [|discriminate].
  apply existsb_exists in Hex. destruct Hex as [named [Hin Ht]].
  destruct (Customer_Name named) as [|s|x] eqn:Hname; try discriminate.
  exists named, s. split; assumption.
Qed.

Lemma row_dtype_numbered {F : Type} `{Number F} (df : DataFrame F) :
  (forall row, In row df -> is_text (Customer_Name row) = false) ->
  row_dtype df = numeric.
Proof.
  intros Hall. unfold row_dtype.
  destruct (existsb (fun row => is_text (Customer_Name row)) df) eqn:Hex;
    [|reflexivity].
  apply existsb_exists in Hex. destruct Hex as [named [Hin Ht]].
  rewrite (Hall named Hin) in Ht. discriminate.
Qed.

(** X4: the run stops with [ZeroDivisionError] exactly when some
    customer name of the sheet is written out and some record has a
    total importance of zero.  When no name is a text the customer loop
    and the figures after it raise nothing, whatever the totals.  And a
    run that comes to the end of section 4 has one rating and one table
    per record. *)
Theorem zero_division_exactly_under_written_names :
  forall (F : Type) (N : Number F) (O : Ordered F) (df : DataFrame F),
    (dashboard df = Raise ZeroDivisionError <->
     (exists named s, In named df /\ Customer_Name named = Text s) /\
     (exists row, In row df /\ is_zero (py_sum (importance_of row)) = true)) /\
    ((forall row, In row df -> is_text (Customer_Name row) = false) ->
     exists st, sections (row_dtype df) df = Ok st) /\
    (forall st t, dashboard df = Ok (st, t) ->
       List.length (ratings st) = List.length df /\
       List.length (shown st) = List.length df).
Proof.
  intros F N O df. split; [|split].
  - split.
    + intros Hd.
      destruct (dashboard_raises df _ Hd) as [Hs | [[st [_ Hpie]] | [st [_ [_ Hkey]]]]].
      * destruct (sections_raise _ df _ Hs) as [_ [row [Hin Hz]]].
        destruct (row_dtype df) eqn:Hdt; [|discriminate].
        split; [apply row_dtype_written; assumption|].
        exists row. split; assumption.
      * pose proof (ax_pie_raises _ _ Hpie) as E. discriminate.
      * pose proof (key_takeaways_raises _ _ Hkey) as E. discriminate.
    + intros [[named [s [Hnamed Hname]]] [row [Hin Hz]]].
      unfold dashboard, sections.
      rewrite (row_dtype_object df named s Hnamed Hname).
      rewrite (iterrows_raises object df row Hin Hz). reflexivity.
  - intros Hall. rewrite (row_dtype_numbered df Hall).
    destruct (iterrows_numeric df [] []) as [out Hloop].
    unfold sections. rewrite Hloop. cbn [bind]. eexists. reflexivity.
  - intros st t Hd. destruct (dashboard_ok df st t Hd) as [Hs _]. split.
    + rewrite (sections_ratings _ df st Hs), length_map. reflexivity.
    + symmetry. apply (Forall2_length (sections_shown _ df st Hs)).
Qed.

(** X13: the report written after a run that came to the end of
    section 4 states the number of records, the index, the summary and
    the average customer satisfaction of the dashboard, and the export
    pass keeps the ratings of the customer loop.  The average of 0 that
    the export pass holds ready for an empty list of ratings is never
    written: without a customer the script stops at the priorities
    chart. *)
Theorem report_repeats_the_dashboard_figures :
  (forall (F : Type) (N : Number F) (O : Ordered F) (df : DataFrame F)
          (st st' : Store F) (t : Takeaways) (report : Report F),
      df <> [] ->
      dashboard df = Ok (st, t) ->
      export_as (row_dtype df) df st = Ok (st', report) ->
      r_total_customers report = List.length df /\
      r_CSI report = CSI st /\
      r_summary report = summary st /\
      r_avg_satisfaction report = avg_customer_sat st /\
      ratings st' = ratings st) /\
  dashboard ([] : DataFrame float) = Raise ValueError.
Proof.
  split.
  - intros F N O df st st' t report Hne Hd He.
    destruct (dashboard_ok df st t Hd) as [Hs _].
    exact (export_figures (row_dtype df) df st st' report Hne Hs He).
  - vm_compute. reflexivity.
Qed.

Lemma report_repeats_the_dashboard_figures_witness :
  exists st st' t report,
    dashboard [Inputs.scenario] = Ok (st, t) /\
    export_as object [Inputs.scenario] st = Ok (st', report) /\
    r_total_customers report = 1%nat /\
    r_CSI report = 259.99999999999994%float /\
    r_avg_satisfaction report = 60%float.
Proof.
  destruct (dashboard [Inputs.scenario]) as [[st t]|e] eqn:Hd;
    [|exfalso; vm_compute in Hd; discriminate].
  destruct (dashboard_ok [Inputs.scenario] st t Hd) as [Hs _].
  destruct (export_after_sections object [Inputs.scenario] st Hs)
    as [st' [report [He _]]].
  assert (Hne : [Inputs.scenario] <> []) by discriminate.
  destruct (proj1 report_repeats_the_dashboard_figures float binary64 binary64_order
              [Inputs.scenario] st st' t report Hne Hd He) as [Hn [Hc [_ [Ha _]]]].
  pose proof (f_equal (fun r => match r with
                                | Ok (s, _) => CSI s
                                | Raise _ => PrimFloat.nan
                                end) Hd) as Hcsi.
  pose proof (f_equal (fun r => match r with
                                | Ok (s, _) => avg_customer_sat s
                                | Raise _ => PrimFloat.nan
                                end) Hd) as Havg.
  cbv beta iota in Hcsi, Havg.
  exists st, st', t, report.
  split; [reflexivity|]. split; [exact He|]. split; [exact Hn|].
  split.
  - rewrite Hc, <- Hcsi. vm_compute. reflexivity.
  - rewrite Ha, <- Havg. vm_compute. reflexivity.
Defined.

(** ** Reading the index *)

(** X14: in exact arithmetic, when the mean importance over the
    categories is a positive number and the mean performance a number,
    the index is one hundred times their quotient; it is at least 100
    exactly when the mean performance is at least the mean importance,
    and no upper bound of 100 holds for it. *)
Theorem index_compares_performance_with_importance :
  forall (df : DataFrame xreal) (st : Store xreal) (a p : R),
    display df = Ok st ->
    imp_avg st = Real a ->
    perf_avg st = Real p ->
    (0 < a)%R ->
    CSI st = Real (p / a * 100)%R /\
    ((100 <= p / a * 100)%R <-> (a <= p)%R) /\
    ((p / a * 100 <= 100)%R <-> (p <= a)%R).
Proof.
  intros df st a p Hd Hi Hp Ha.
  destruct (display_store df st Hd) as [_ [_ [_ [Hc _]]]].
  rewrite Hc, Hi, Hp. simpl.
  destruct (Req_dec_T a 0) as [E|_]; [lra|]. split; [reflexivity|].
  assert (Hq : (p / a * 100 - 100 = (p - a) * (100 / a))%R) by (field; lra).
  assert (Hpos : (0 < 100 / a)%R) by (apply Rdiv_lt_0_compat; lra).
  split; split; intros Hle; nra.
Qed.

Lemma index_compares_performance_with_importance_witness :
  exists st,
    display [Inputs.exact_scenario] = Ok st /\
    CSI st = Real ((0 + 26 / 6) / ((0 + 10 / 6)) * 100)%R.
Proof.
  assert (Hz : Forall (fun row : Row xreal => is_zero (py_sum (importance_of row)) = false)
                 [Inputs.exact_scenario]).
  { assert (H1 : py_sum (importance_of Inputs.exact_scenario)
                 = Real (0 + 5 + 1 + 1 + 1 + 1 + 1)%R) by reflexivity.
    apply Forall_cons; [rewrite H1; apply is_zero_real; lra | apply Forall_nil]. }
  destruct (iterrows_total object _ Hz [] []) as [out Hloop].
  assert (Hd : exists st, display [Inputs.exact_scenario] = Ok st).
  { unfold display, sections. rewrite Hloop. cbn [bind]. eexists. reflexivity. }
  destruct Hd as [st Hd]. exists st. split; [exact Hd|].
  destruct (display_store _ st Hd) as [_ [Hi [Hp _]]].
  assert (Hmean : forall x : R, Series_mean [Real x] = Real ((0 + x) / 1)%R).
  { intros x. unfold Series_mean. simpl.
    destruct (Req_dec_T 1 0); [lra | reflexivity]. }
  assert (Hmean6 : forall x1 x2 x3 x4 x5 x6 : R,
             Series_mean [Real x1; Real x2; Real x3; Real x4; Real x5; Real x6]
             = Real ((0 + x1 + x2 + x3 + x4 + x5 + x6) / 6)%R).
  { intros. unfold Series_mean. simpl.
    destruct (Req_dec_T 6 0); [lra | reflexivity]. }
  assert (Hia : imp_avg st = Real (0 + 10 / 6)%R).
  { rewrite Hi. unfold summarise, column. cbn [map categories Importance].
    change (get Inputs.exact_scenario (Importance_of "Timeliness")) with (Real 5).
    change (get Inputs.exact_scenario (Importance_of "Competence")) with (Real 1).
    change (get Inputs.exact_scenario (Importance_of "Clarity")) with (Real 1).
    change (get Inputs.exact_scenario (Importance_of "Quality")) with (Real 1).
    change (get Inputs.exact_scenario (Importance_of "Service")) with (Real 1).
    change (get Inputs.exact_scenario (Importance_of "Pricing")) with (Real 1).
    rewrite !Hmean, Hmean6. f_equal. field. }
  assert (Hpa : perf_avg st = Real (0 + 26 / 6)%R).
  { rewrite Hp. unfold summarise, column. cbn [map categories Performance].
    change (get Inputs.exact_scenario (Performance_of "Timeliness")) with (Real 1).
    change (get Inputs.exact_scenario (Performance_of "Competence")) with (Real 5).
    change (get Inputs.exact_scenario (Performance_of "Clarity")) with (Real 5).
    change (get Inputs.exact_scenario (Performance_of "Quality")) with (Real 5).
    change (get Inputs.exact_scenario (Performance_of "Service")) with (Real 5).
    change (get Inputs.exact_scenario (Performance_of "Pricing")) with (Real 5).
    rewrite !Hmean, Hmean6. f_equal. field. }
  apply (index_compares_performance_with_importance
           [Inputs.exact_scenario] st _ _ Hd Hia Hpa).
  lra.
Defined.

(** ** The distribution chart *)

Lemma length_filter_le {A} (p q : A -> bool) (a : list A) :
  (forall x, p x = true -> q x = true) ->
  (List.length (filter p a) <= List.length (filter q a))%nat.
Proof.
  intros Hpq. induction a as [|x a IH]; simpl; [lia|].
  destruct (p x) eqn:Hp.
  - rewrite (Hpq x Hp). simpl. lia.
  - destruct (q x); simpl; lia.
Qed.

Lemma length_filter_diff {A} (p q : A -> bool) (a : list A) :
  (forall x, p x = true -> q x = true) ->
  (List.length (filter q a) - List.length (filter p a))%nat =
  List.length (filter (fun x => q x && negb (p x)) a).
Proof.
  intros Hpq. induction a as [|x a IH]; cbn [filter]; [reflexivity|].
  pose proof (length_filter_le p q a Hpq) as Hle.
  destruct (p x) eqn:Hp; [rewrite (Hpq x Hp) | destruct (q x)];
    cbn [andb negb List.length]; rewrite <- ?IH; lia.
Qed.

Section Histogram.

Local Open Scope R_scope.

Lemma xlt_mono (lo hi : R) (x : xreal) :
  lo <= hi -> xlt x (Real lo) = true -> xlt x (Real hi) = true.
Proof.
  intros Hle. destruct x as [x|]; simpl; [|discriminate].
  destruct (Rlt_dec x lo), (Rlt_dec x hi); intros Hx;
    try reflexivity; try discriminate.
  exfalso. lra.
Qed.

Lemma xlt_xle (lo hi : R) (x : xreal) :
  lo <= hi -> xlt x (Real lo) = true -> xle x (Real hi) = true.
Proof.
  intros Hle. destruct x as [x|]; simpl; [|discriminate].
  destruct (Rlt_dec x lo), (Rle_dec x hi); intros Hx;
    try reflexivity; try discriminate.
  exfalso. lra.
Qed.

Lemma half_open_bin (lo hi : R) (x : xreal) :
  xlt x (Real hi) && negb (xlt x (Real lo)) = xle (Real lo) x && xlt x (Real hi).
Proof.
  destruct x as [x|]; simpl; [|reflexivity].
  destruct (Rlt_dec x hi), (Rlt_dec x lo), (Rle_dec lo x); simpl;
    try reflexivity; exfalso; lra.
Qed.

Lemma closed_bin (lo hi : R) (x : xreal) :
  xle x (Real hi) && negb (xlt x (Real lo)) = xle (Real lo) x && xle x (Real hi).
Proof.
  destruct x as [x|]; simpl; [|reflexivity].
  destruct (Rle_dec x hi), (Rlt_dec x lo), (Rle_dec lo x); simpl;
    try reflexivity; exfalso; lra.
Qed.

Lemma histogram_bars (ratings : list xreal) :
  satisfaction_histogram ratings =
  [ List.length (filter (fun x => num_le (of_Z 50) x && num_lt x (of_Z 65)) ratings);
    List.length (filter (fun x => num_le (of_Z 65) x && num_lt x (of_Z 75)) ratings);
    List.length (filter (fun x => num_le (of_Z 75) x && num_lt x (of_Z 85)) ratings);
    List.length (filter (fun x => num_le (of_Z 85) x && num_lt x (of_Z 95)) ratings);
    List.length (filter (fun x => num_le (of_Z 95) x && num_le x (of_Z 100)) ratings) ].
Proof.
  unfold satisfaction_histogram, np_histogram, searchsorted_inclusive, satisfaction_bins.
  cbn [map removelast last app diff of_Z exact num_le num_lt exact_order].
  rewrite (length_filter_diff (fun x => xlt x (Real 50)) (fun x => xlt x (Real 65)))
    by (intros x; apply xlt_mono; lra).
  rewrite (length_filter_diff (fun x => xlt x (Real 65)) (fun x => xlt x (Real 75)))
    by (intros x; apply xlt_mono; lra).
  rewrite (length_filter_diff (fun x => xlt x (Real 75)) (fun x => xlt x (Real 85)))
    by (intros x; apply xlt_mono; lra).
  rewrite (length_filter_diff (fun x => xlt x (Real 85)) (fun x => xlt x (Real 95)))
    by (intros x; apply xlt_mono; lra).
  rewrite (length_filter_diff (fun x => xlt x (Real 95)) (fun x => xle x (Real 100)))
    by (intros x; apply xlt_xle; lra).
  rewrite (filter_ext _ _ (half_open_bin 50 65)), (filter_ext _ _ (half_open_bin 65 75)),
    (filter_ext _ _ (half_open_bin 75 85)), (filter_ext _ _ (half_open_bin 85 95)),
    (filter_ext _ _ (closed_bin 95 100)).
  reflexivity.
Qed.

Lemma histogram_total (ratings : list xreal) :
  list_sum (satisfaction_histogram ratings) =
  List.length (filter (fun x => num_le (of_Z 50) x && num_le x (of_Z 100)) ratings).
Proof.
  unfold satisfaction_histogram, np_histogram, searchsorted_inclusive, satisfaction_bins.
  cbn [map removelast last app diff of_Z exact num_le num_lt exact_order list_sum fold_right].
  pose proof (length_filter_le (fun x => xlt x (Real 50)) (fun x => xlt x (Real 65)) ratings
                (fun x => xlt_mono 50 65 x ltac:(lra))) as H1.
  pose proof (length_filter_le (fun x => xlt x (Real 65)) (fun x => xlt x (Real 75)) ratings
                (fun x => xlt_mono 65 75 x ltac:(lra))) as H2.
  pose proof (length_filter_le (fun x => xlt x (Real 75)) (fun x => xlt x (Real 85)) ratings
                (fun x => xlt_mono 75 85 x ltac:(lra))) as H3.
  pose proof (length_filter_le (fun x => xlt x (Real 85)) (fun x => xlt x (Real 95)) ratings
                (fun x => xlt_mono 85 95 x ltac:(lra))) as H4.
  pose proof (length_filter_le (fun x => xlt x (Real 95)) (fun x => xle x (Real 100)) ratings
                (fun x => xlt_xle 95 100 x ltac:(lra))) as H5.
  rewrite <- (filter_ext _ _ (closed_bin 50 100)).
  rewrite <- (length_filter_diff (fun x => xlt x (Real 50)) (fun x => xle x (Real 100)))
    by (intros x; apply xlt_xle; lra).
  lia.
Qed.

End Histogram.

(** X15: in exact arithmetic the five bars of the distribution chart
    count the ratings from 50 up to but not 65, from 65 to 75, from 75
    to 85, from 85 to 95, and from 95 up to and including 100; together
    they count the ratings between 50 and 100 and no others, so a
    customer below 50, above 100 or without a percentage is in no bar.
    In double precision the customer who scores 100.00000000000003 is
    left out in this way. *)
Theorem distribution_chart_counts_ratings_from_50_to_100 :
  (forall ratings : list xreal,
      satisfaction_histogram ratings =
      [ List.length (filter (fun x => num_le (of_Z 50) x && num_lt x (of_Z 65)) ratings);
        List.length (filter (fun x => num_le (of_Z 65) x && num_lt x (of_Z 75)) ratings);
        List.length (filter (fun x => num_le (of_Z 75) x && num_lt x (of_Z 85)) ratings);
        List.length (filter (fun x => num_le (of_Z 85) x && num_lt x (of_Z 95)) ratings);
        List.length (filter (fun x => num_le (of_Z 95) x && num_le x (of_Z 100)) ratings) ] /\
      list_sum (satisfaction_histogram ratings) =
      List.length (filter (fun x => num_le (of_Z 50) x && num_le x (of_Z 100)) ratings)) /\
  (exists st,
      display [Inputs.scenario; Inputs.delighted] = Ok st /\
      ratings st = [60; 100.00000000000003]%float /\
      satisfaction_histogram (ratings st) = [1; 0; 0; 0; 0]%nat).
Proof.
  split.
  - intros ratings. split; [apply histogram_bars | apply histogram_total].
  - eexists. split; [vm_compute; reflexivity|].
    split; vm_compute; reflexivity.
Qed.

(** ** The key takeaways *)

Section BestPosition.

(** An order on the real numbers, [<=] for [idxmax] and [>=] for
    [idxmin], with the test that a value beats the best one so far. *)
Variable le : R -> R -> Prop.
Variable beats : xreal -> xreal -> bool.

Hypothesis le_refl : forall x, le x x.
Hypothesis le_trans : forall x y z, le x y -> le y z -> le x z.
Hypothesis beats_true : forall x m,
  beats (Real x) (Real m) = true -> le m x /\ ~ le x m.
Hypothesis beats_false : forall x m,
  beats (Real x) (Real m) = false -> le x m.

Lemma nth_error_snoc (pre : list xreal) (x : xreal) (k : nat) (v : xreal) :
  nth_error (pre ++ [x]) k = Some v ->
  ((k < List.length pre)%nat /\ nth_error pre k = Some v) \/
  (k = List.length pre /\ v = x).
Proof.
  intros Hk. destruct (Nat.lt_ge_cases k (List.length pre)) as [Hlt|Hge].
  - left. split; [assumption|]. rewrite nth_error_app1 in Hk; assumption.
  - right. rewrite nth_error_app2 in Hk by assumption.
    destruct (k - List.length pre)%nat as [|d] eqn:Hd; simpl in Hk.
    + split; [lia | congruence].
    + destruct d; discriminate.
Qed.

Lemma idx_best_spec (l : list xreal) :
  forall (pre : list xreal) (best : option (nat * xreal)),
    match best with
    | None => Forall (fun x => x = NaN) pre
    | Some (j, m) => exists mv, m = Real mv /\ best_at le pre j mv
    end ->
    match idx_best beats l (List.length pre) best with
    | None => Forall (fun x => x = NaN) (pre ++ l)
    | Some i => exists mv, best_at le (pre ++ l) i mv
    end.
Proof.
  induction l as [|x l IH]; intros pre best Hinv.
  - rewrite app_nil_r. destruct best as [[j m]|]; simpl.
    + destruct Hinv as [mv [_ Hb]]. exists mv. exact Hb.
    + exact Hinv.
  - replace (pre ++ x :: l) with ((pre ++ [x]) ++ l) by (rewrite <- app_assoc; reflexivity).
    assert (Hlen : S (List.length pre) = List.length (pre ++ [x]))
      by (rewrite length_app; simpl; lia).
    cbn [idx_best]. rewrite Hlen.
    destruct x as [v|]; cbn [is_nan exact xis_nan].
    + destruct best as [[j m]|].
      * destruct Hinv as [mv [-> [Hnth [Hmax Hfirst]]]].
        assert (Hj : (j < List.length pre)%nat)
          by (apply nth_error_Some; rewrite Hnth; discriminate).
        destruct (beats (Real v) (Real mv)) eqn:Hb; apply IH.
        -- apply beats_true in Hb. destruct Hb as [Hle Hnle].
           exists v. split; [reflexivity|]. split; [|split].
           ++ rewrite nth_error_app2, Nat.sub_diag by lia. reflexivity.
           ++ intros k y Hk. apply nth_error_snoc in Hk.
              destruct Hk as [[_ Hk] | [_ Hk]].
              ** apply (le_trans _ mv); [apply (Hmax k y Hk) | exact Hle].
              ** injection Hk as ->. apply le_refl.
           ++ intros k y Hlt Hk. rewrite nth_error_app1 in Hk by lia.
              intros Hvy. apply Hnle. apply (le_trans _ y); [exact Hvy|].
              apply (Hmax k y Hk).
        -- apply beats_false in Hb.
           exists mv. split; [reflexivity|]. split; [|split].
           ++ rewrite nth_error_app1 by lia. exact Hnth.
           ++ intros k y Hk. apply nth_error_snoc in Hk.
              destruct Hk as [[_ Hk] | [_ Hk]].
              ** apply (Hmax k y Hk).
              ** injection Hk as ->. exact Hb.
           ++ intros k y Hlt Hk. rewrite nth_error_app1 in Hk by lia.
              apply (Hfirst k y Hlt Hk).
      * apply IH. exists v. split; [reflexivity|]. split; [|split].
        -- rewrite nth_error_app2, Nat.sub_diag by lia. reflexivity.
        -- intros k y Hk. apply nth_error_snoc in Hk.
           destruct Hk as [[_ Hk] | [_ Hk]].
           ++ apply nth_error_In in Hk. rewrite Forall_forall in Hinv.
              specialize (Hinv _ Hk). discriminate.
           ++ injection Hk as ->. apply le_refl.
        -- intros k y Hlt Hk. rewrite nth_error_app1 in Hk by lia.
           apply nth_error_In in Hk. rewrite Forall_forall in Hinv.
           specialize (Hinv _ Hk). discriminate.
    + apply IH. destruct best as [[j m]|].
      * destruct Hinv as [mv [-> [Hnth [Hmax Hfirst]]]].
        assert (Hj : (j < List.length pre)%nat)
          by (apply nth_error_Some; rewrite Hnth; discriminate).
        exists mv. split; [reflexivity|]. split; [|split].
        -- rewrite nth_error_app1 by lia. exact Hnth.
        -- intros k y Hk. apply nth_error_snoc in Hk.
           destruct Hk as [[_ Hk] | [_ Hk]]; [apply (Hmax k y Hk) | discriminate].
        -- intros k y Hlt Hk. rewrite nth_error_app1 in Hk by lia.
           apply (Hfirst k y Hlt Hk).
      * apply Forall_app. split; [exact Hinv | repeat constructor].
Qed.

End BestPosition.

Lemma idxmax_spec (s : list xreal) :
  match idxmax s with
  | None => Forall (fun x => x = NaN) s
  | Some i => exists m, best_at Rle s i m
  end.
Proof.
  unfold idxmax.
  apply (idx_best_spec Rle (fun x m => num_lt m x) Rle_refl Rle_trans) with (pre := []).
  - intros x m. simpl. destruct (Rlt_dec m x); [lra | discriminate].
  - intros x m. simpl. destruct (Rlt_dec m x); [discriminate | lra].
  - constructor.
Qed.

Lemma idxmin_spec (s : list xreal) :
  match idxmin s with
  | None => Forall (fun x => x = NaN) s
  | Some i => exists m, best_at Rge s i m
  end.
Proof.
  unfold idxmin.
  apply (idx_best_spec Rge (fun x m => num_lt x m) Rge_refl Rge_trans) with (pre := []).
  - intros x m. simpl. destruct (Rlt_dec x m); [lra | discriminate].
  - intros x m. simpl. destruct (Rlt_dec x m); [discriminate | lra].
  - constructor.
Qed.

(** X16: in exact arithmetic the takeaways name the first of the best
    categories.  The highest rated area is the category of the largest
    gap, the lowest rated area that of the smallest gap and the most
    consistent area that of the smallest consistency figure; missing
    figures are passed over, of equal figures the first category in the
    fixed order is named, and no category is named only when every
    figure is missing. *)
Theorem takeaways_name_the_first_best_category :
  forall st : Store xreal,
    match highest_rated_area st with
    | None => Forall (fun x => x = NaN) (map Gap (summary st))
    | Some c => exists i m, c = category_at i /\ best_at Rle (map Gap (summary st)) i m
    end /\
    match lowest_rated_area st with
    | None => Forall (fun x => x = NaN) (map Gap (summary st))
    | Some c => exists i m, c = category_at i /\ best_at Rge (map Gap (summary st)) i m
    end /\
    match most_consistent_area st with
    | None => Forall (fun x => x = NaN) (map snd (variation st))
    | Some c => exists i m, c = category_at i /\ best_at Rge (map snd (variation st)) i m
    end /\
    match most_important_area st with
    | None => Forall (fun x => x = NaN) (map Importance (summary st))
    | Some c => exists i m, c = category_at i /\
                            best_at Rle (map Importance (summary st)) i m
    end.
Proof.
  intros st.
  unfold highest_rated_area, lowest_rated_area, most_consistent_area, most_important_area.
  pose proof (idxmax_spec (map Gap (summary st))) as H1.
  pose proof (idxmin_spec (map Gap (summary st))) as H2.
  pose proof (idxmin_spec (map snd (variation st))) as H3.
  pose proof (idxmax_spec (map Importance (summary st))) as H4.
  repeat split.
  - destruct (idxmax (map Gap (summary st))) as [i|]; simpl; [|exact H1].
    destruct H1 as [m Hm]. exists i, m. split; [reflexivity | exact Hm].
  - destruct (idxmin (map Gap (summary st))) as [i|]; simpl; [|exact H2].
    destruct H2 as [m Hm]. exists i, m. split; [reflexivity | exact Hm].
  - destruct (idxmin (map snd (variation st))) as [i|]; simpl; [|exact H3].
    destruct H3 as [m Hm]. exists i, m. split; [reflexivity | exact Hm].
  - destruct (idxmax (map Importance (summary st))) as [i|]; simpl; [|exact H4].
    destruct H4 as [m Hm]. exists i, m. split; [reflexivity | exact Hm].
Qed.

(** ** The earlier version *)

Section EarlierVersion.

Context {F : Type} `{Number F} `{Ordered F}.

Lemma v6_iterrows_total (d : dtype) (df : DataFrame F) :
  Forall (fun row => raises d (py_sum (importance_of row)) = false) df ->
  forall ratings html_sections,
    v6_iterrows d df ratings html_sections =
    Ok (ratings ++ map pct df,
        html_sections ++ map (fun row => Customer_html (Customer_Name row) (pct row)) df).
Proof.
  induction 1 as [|row rest Hz _ IH]; intros ratings html_sections.
  - simpl. rewrite !app_nil_r. reflexivity.
  - cbn [v6_iterrows]. rewrite comprehension_divide, Hz.
    change (v6_iterrows d rest (ratings ++ [pct row])
              (html_sections ++ [Customer_html (Customer_Name row) (pct row)]) =
            Ok (ratings ++ map pct (row :: rest),
                html_sections
                ++ map (fun r => Customer_html (Customer_Name r) (pct r)) (row :: rest))).
    rewrite IH. cbn [map]. rewrite <- !app_assoc. reflexivity.
Qed.

Lemma v6_iterrows_raises (d : dtype) (df : DataFrame F) (row : Row F) :
  In row df ->
  raises d (py_sum (importance_of row)) = true ->
  forall ratings html_sections,
    v6_iterrows d df ratings html_sections = Raise ZeroDivisionError.
Proof.
  intros Hin Hz.
  induction df as [|row' rest IH]; intros ratings html_sections; [contradiction|].
  cbn [v6_iterrows]. rewrite comprehension_divide.
  destruct (raises d (py_sum (importance_of row'))) eqn:Hz'.
  - reflexivity.
  - cbn [bind]. destruct Hin as [E | Hin]; [subst row'; congruence|].
    apply IH. assumption.
Qed.

(** Once the final version has its figures, the earlier version has
    the same ones and stands before the same priorities chart. *)
Lemma v6_after_sections (df : DataFrame F) (st : Store F) :
  sections (row_dtype df) df = Ok st ->
  v6_html_sections df =
  do drawn <- ax_pie (weights_total (summary st)) ;; Ok (parts_with df st).
Proof.
  intros Hs.
  destruct (sections_store _ df st Hs) as [Hsum [Hi [Hp [Hc [Ha _]]]]].
  pose proof (sections_ratings _ df st Hs) as Hr.
  pose proof (sections_nonzero _ df st Hs) as Hall.
  unfold v6_html_sections. rewrite (v6_iterrows_total _ df Hall [] []).
  cbn [bind fst snd app]. rewrite Hsum. unfold parts_with.
  rewrite Hc, Hi, Hp, Ha, Hr. reflexivity.
Qed.

Lemma v6_agrees (df : DataFrame F) :
  (forall st t, dashboard df = Ok (st, t) -> v6_html_sections df = Ok (parts_with df st)) /\
  (forall e, dashboard df = Raise e -> e <> KeyError ->
             v6_html_sections df = Raise e) /\
  (dashboard df = Raise KeyError ->
   exists st, sections (row_dtype df) df = Ok st /\
              v6_html_sections df = Ok (parts_with df st)).
Proof.
  split; [|split].
  - intros st t Hd. destruct (dashboard_ok df st t Hd) as [Hs [Hpie _]].
    rewrite (v6_after_sections df st Hs), Hpie. reflexivity.
  - intros e Hd Hne.
    destruct (dashboard_raises df e Hd) as [Hs | [[st [Hs Hpie]] | [st [Hs [_ Hkey]]]]].
    + destruct (sections_raise _ df e Hs) as [-> [row [Hin Hz]]].
      unfold v6_html_sections.
      rewrite (v6_iterrows_raises _ df row Hin Hz). reflexivity.
    + rewrite (v6_after_sections df st Hs), Hpie. reflexivity.
    + contradiction Hne. apply (key_takeaways_raises st e Hkey).
  - intros Hd.
    destruct (dashboard_raises df KeyError Hd)
      as [Hs | [[st [Hs Hpie]] | [st [Hs [Hpie _]]]]].
    + destruct (sections_raise _ df KeyError Hs) as [E _]. discriminate.
    + pose proof (ax_pie_raises _ _ Hpie) as E. discriminate.
    + exists st. split; [assumption|].
      rewrite (v6_after_sections df st Hs), Hpie. reflexivity.
Qed.

End EarlierVersion.

(** X17: the earlier version of the dashboard computes the same figures
    as the final one and stops where the final one stops, the key
    takeaways apart, which it does not have.  Whenever the final one
    comes to the end of its section 4, the report of the earlier
    version opens with the summary, holding the number of customers and
    the same index and average customer satisfaction, and goes on with
    one part per customer in the order of the sheet, holding the same
    percentage.  Whenever the final one stops in the customer loop or
    at the priorities chart, the earlier one raises the same exception.
    Whenever the final one stops with [KeyError] in its key takeaways,
    the earlier one has its report all the same. *)
Theorem earlier_version_reports_the_same_figures :
  forall (F : Type) (N : Number F) (O : Ordered F) (df : DataFrame F),
    (forall st t, dashboard df = Ok (st, t) ->
       v6_html_sections df =
       Ok (Summary_html (List.length df) (CSI st) (avg_customer_sat st)
           :: map (fun row =>
                     Customer_html (Customer_Name row)
                       (spec_satisfaction_pct 5 (importance_of row) (performance_of row)))
                  df)) /\
    (forall e, dashboard df = Raise e -> e <> KeyError ->
       v6_html_sections df = Raise e) /\
    (dashboard df = Raise KeyError ->
     exists st,
       sections (row_dtype df) df = Ok st /\
       v6_html_sections df =
       Ok (Summary_html (List.length df) (CSI st) (avg_customer_sat st)
           :: map (fun row =>
                     Customer_html (Customer_Name row)
                       (spec_satisfaction_pct 5 (importance_of row) (performance_of row)))
                  df)).
Proof. intros F N O df. apply v6_agrees. Qed.

(** ** The colours of the gap chart *)

(** X18: in exact arithmetic a category is drawn green, and marked
    positive in the report, exactly when its average performance is at
    least its average importance; a category for which one of the two
    averages is missing is drawn red. *)
Theorem gap_is_green_when_performance_reaches_importance :
  forall (df : DataFrame xreal) (st : Store xreal),
    display df = Ok st ->
    Forall
      (fun r =>
         match Importance r, Performance r with
         | Real a, Real p =>
             Gap r = Real (p - a) /\ (gap_is_positive (Gap r) = true <-> (a <= p)%R)
         | _, _ => Gap r = NaN /\ gap_is_positive (Gap r) = false
         end)
      (summary st).
Proof.
  intros df st Hd. destruct (display_store df st Hd) as [Hs _].
  rewrite Hs. unfold summarise. apply Forall_forall. intros r Hin.
  apply in_map_iff in Hin. destruct Hin as [c [<- _]].
  cbn [Importance Performance Gap].
  destruct (Series_mean (column df (Importance_of c))) as [a|],
           (Series_mean (column df (Performance_of c))) as [p|];
    try (split; reflexivity).
  split; [reflexivity|]. unfold gap_is_positive. simpl.
  destruct (Rle_dec 0 (p - a)); split; intros Hx; try reflexivity;
    try discriminate; lra.
Qed.

Lemma gap_is_green_when_performance_reaches_importance_witness :
  exists st,
    display [Inputs.exact_scenario] = Ok st /\
    Forall
      (fun r =>
         match Importance r, Performance r with
         | Real a, Real p =>
             Gap r = Real (p - a) /\ (gap_is_positive (Gap r) = true <-> (a <= p)%R)
         | _, _ => Gap r = NaN /\ gap_is_positive (Gap r) = false
         end)
      (summary st).
Proof.
  assert (Hz : Forall (fun row : Row xreal => is_zero (py_sum (importance_of row)) = false)
                 [Inputs.exact_scenario]).
  { assert (H1 : py_sum (importance_of Inputs.exact_scenario)
                 = Real (0 + 5 + 1 + 1 + 1 + 1 + 1)%R) by reflexivity.
    apply Forall_cons; [rewrite H1; apply is_zero_real; lra | apply Forall_nil]. }
  destruct (iterrows_total object _ Hz [] []) as [out Hloop].
  assert (Hd : exists st, display [Inputs.exact_scenario] = Ok st).
  { unfold display, sections. rewrite Hloop. cbn [bind]. eexists. reflexivity. }
  destruct Hd as [st Hd]. exists st. split; [exact Hd|].
  exact (gap_is_green_when_performance_reaches_importance [Inputs.exact_scenario] st Hd).
Defined.
